(** * Remediation-status consistency engine

    A shallow embedding of the Python modules

    - [layer/findings_repository.py]   (module [FindingsRepository])
    - [layer/history_repository.py]    (module [HistoryRepository])
    - [layer/remediation_data_service.py] (module [RemediationDataService])

    together with the fragments of the Python runtime they rely on
    (strings, [int], [datetime]) and a model of the backing store's
    conditional-write contract (module [Store]).  Definitions come first;
    every lemma and theorem is stated afterwards. *)

From Stdlib Require Import ZArith Ascii String DecimalString Lia.
From stdpp Require Import gmap strings list fin_maps.

Open Scope string_scope.

(** ** Python runtime: exceptions and results *)

(** The error payload boto3 attaches to a [ClientError]:
    [e.response["Error"]["Code"]] and, for cancelled transactions,
    [e.response["CancellationReasons"]], one entry per transaction item.
    Every level is a Python dict read with [.get], hence the options. *)
Record ErrorDict := mkErrorDict {
  Code : option string;
  Message : option string;
}.

Record ErrorResponse := mkErrorResponse {
  Error : option ErrorDict;
  CancellationReasons : option (list ErrorDict);
}.

Inductive exn :=
| ClientError (response : ErrorResponse)
| ValueError (msg : string)
| OverflowError (msg : string)
| KeyError (key : string)
| OtherException (msg : string).

(** [is_ClientError e] is the test performed by [except ClientError]. *)
Definition is_ClientError (e : exn) : bool :=
  match e with ClientError _ => true | _ => false end.

Inductive outcome (A : Type) :=
| Return (a : A)
| Raise (e : exn).
Arguments Return {A} a.
Arguments Raise {A} e.

Definition obind {A B} (x : outcome A) (f : A → outcome B) : outcome B :=
  match x with Return a => f a | Raise e => Raise e end.

(** ** Python runtime: strings *)
Module Py.

(** Truthiness of a [str] and of an [Optional[str]]. *)
Definition str_truthy (s : string) : bool :=
  match s with EmptyString => false | String _ _ => true end.

Definition truthy (s : option string) : bool :=
  match s with None => false | Some s => str_truthy s end.

(** [x or d] for an [Optional[str]] [x]. *)
Definition or_else (x : option string) (d : string) : string :=
  match x with
  | Some s => if str_truthy s then s else d
  | None => d
  end.



(** [strip_prefix p s] is [Some rest] when [s = p ++ rest]. *)
Fixpoint strip_prefix (p s : string) : option string :=
  match p with
  | EmptyString => Some s
  | String a p' =>
      match s with
      | String b s' => if Ascii.eqb a b then strip_prefix p' s' else None
      | EmptyString => None
      end
  end.

(** [str.replace(old, new)] for a non-empty [old]: a left-to-right scan
    replacing every non-overlapping occurrence.  [skip] counts the
    characters of a matched occurrence that are still to be dropped. *)
Fixpoint replace_from (old new : string) (skip : nat) (s : string) : string :=
  match s with
  | EmptyString => EmptyString
  | String c s' =>
      match skip with
      | S k => replace_from old new k s'
      | O =>
          match strip_prefix old s with
          | Some _ => new +:+ replace_from old new (String.length old - 1) s'
          | None => String c (replace_from old new 0 s')
          end
      end
  end.

Definition replace (old new s : string) : string := replace_from old new 0 s.

(** [str.split(sep)] for a non-empty separator, same scanning scheme;
    [cur] holds the current piece reversed. *)
Fixpoint split_from (sep : string) (skip : nat) (cur : string) (s : string)
  : list string :=
  match s with
  | EmptyString => [String.rev cur]
  | String c s' =>
      match skip with
      | S k => split_from sep k cur s'
      | O =>
          match strip_prefix sep s with
          | Some _ =>
              String.rev cur :: split_from sep (String.length sep - 1) EmptyString s'
          | None => split_from sep 0 (String c cur) s'
          end
      end
  end.

Definition split (sep s : string) : list string :=
  split_from sep 0 EmptyString s.

(** Whitespace as [str.strip] sees it in the ASCII range. *)
Definition is_space (c : ascii) : bool :=
  let n := N_of_ascii c in
  (((9 <=? n) && (n <=? 13)) || ((28 <=? n) && (n <=? 32)))%N.

Fixpoint lstrip (s : string) : string :=
  match s with
  | EmptyString => EmptyString
  | String c s' => if is_space c then lstrip s' else s
  end.

Definition strip (s : string) : string :=
  String.rev (lstrip (String.rev (lstrip s))).

(** The value of a decimal digit, from its character code. *)
Definition digit_val (c : ascii) : option Z :=
  let n := Z.of_N (N_of_ascii c) in
  if ((48 <=? n) && (n <=? 57))%Z then Some (n - 48)%Z else None.

(** The character of a decimal digit [0..9]. *)
Definition digit_char (d : Z) : ascii :=
  ascii_of_N (Z.to_N (48 + d)).

(** Digits of a decimal literal, with single underscores allowed between
    digits, as [int(str)] accepts them. *)
Inductive lit_state := LitStart | LitDigit | LitUnderscore.

Fixpoint parse_digits (st : lit_state) (acc : Z) (s : string) : option Z :=
  match s with
  | EmptyString => match st with LitDigit => Some acc | _ => None end
  | String c s' =>
      match digit_val c with
      | Some d => parse_digits LitDigit (acc * 10 + d)%Z s'
      | None =>
          if Ascii.eqb c "_" then
            match st with
            | LitDigit => parse_digits LitUnderscore acc s'
            | _ => None
            end
          else None
      end
  end.

(** [int(s)] for a string: surrounding whitespace, an optional sign,
    decimal digits.  [ValueError] otherwise. *)
Definition int (s : string) : outcome Z :=
  let body := strip s in
  let signed :=
    match body with
    | String "-" r => (-1, r)
    | String "+" r => (1, r)
    | _ => (1, body)
    end%Z in
  match parse_digits LitStart 0 (snd signed) with
  | Some n => Return (fst signed * n)%Z
  | None => Raise (ValueError ("invalid literal for int() with base 10: " +:+ s))
  end.

(** [str(n)] for an integer. *)
Definition str_of_int (n : Z) : string :=
  NilZero.string_of_int (Z.to_int n).

(** [os.getenv(name, default)] over [os.environ]. *)
Definition getenv (environ : gmap string string) (name default : string) : string :=
  match environ !! name with Some v => v | None => default end.

End Py.

(** ** Python runtime: [datetime]

    The parts of CPython's [datetime] module that
    [calculate_ttl_timestamp] and [build_create_item] go through:
    [isoformat], [fromisoformat], [datetime + timedelta(days=n)] and
    [timestamp].  Calendar arithmetic follows [datetime.py]
    ([_ymd2ord], [_ord2ymd]); [//] and [%] are floor division, i.e.
    [Z.div] and [Z.modulo]. *)
Module Datetime.
Local Open Scope Z_scope.

(** [utcoffset = None] is a naive datetime; [Some off] is an aware one,
    [off] seconds east of UTC. *)
Record datetime := mkDatetime {
  year : Z; month : Z; day : Z;
  hour : Z; minute : Z; second : Z; microsecond : Z;
  utcoffset : option Z;
}.

Definition MINYEAR := 1.
Definition MAXYEAR := 9999.
Definition MAXORDINAL := 3652059.
(** [date(1970, 1, 1).toordinal()] *)
Definition EPOCH_ORDINAL := 719163.

Definition is_leap (y : Z) : bool :=
  (y mod 4 =? 0) && (negb (y mod 100 =? 0) || (y mod 400 =? 0)).

Definition days_before_year (y : Z) : Z :=
  let y := y - 1 in y * 365 + y / 4 - y / 100 + y / 400.

Definition DAYS_IN_MONTH (m : Z) : Z :=
  match m with
  | 1 => 31 | 2 => 28 | 3 => 31 | 4 => 30 | 5 => 31 | 6 => 30
  | 7 => 31 | 8 => 31 | 9 => 30 | 10 => 31 | 11 => 30 | 12 => 31
  | _ => -1
  end.

Definition DAYS_BEFORE_MONTH (m : Z) : Z :=
  match m with
  | 1 => 0 | 2 => 31 | 3 => 59 | 4 => 90 | 5 => 120 | 6 => 151
  | 7 => 181 | 8 => 212 | 9 => 243 | 10 => 273 | 11 => 304 | 12 => 334
  | _ => -1
  end.

Definition days_in_month (y m : Z) : Z :=
  if (m =? 2) && is_leap y then 29 else DAYS_IN_MONTH m.

Definition days_before_month (y m : Z) : Z :=
  DAYS_BEFORE_MONTH m + (if (2 <? m) && is_leap y then 1 else 0).

Definition ymd2ord (y m d : Z) : Z :=
  days_before_year y + days_before_month y m + d.

Definition ord2ymd (n : Z) : Z * Z * Z :=
  let n := n - 1 in
  let n400 := n / 146097 in
  let n := n mod 146097 in
  let year := n400 * 400 + 1 in
  let n100 := n / 36524 in
  let n := n mod 36524 in
  let n4 := n / 1461 in
  let n := n mod 1461 in
  let n1 := n / 365 in
  let n := n mod 365 in
  let year := year + n100 * 100 + n4 * 4 + n1 in
  if (n1 =? 4) || (n100 =? 4) then (year - 1, 12, 31)
  else
    let leapyear := (n1 =? 3) && (negb (n4 =? 24) || (n100 =? 3)) in
    let month := (n + 50) / 32 in
    let preceding :=
      DAYS_BEFORE_MONTH month + (if (2 <? month) && leapyear then 1 else 0) in
    if n <? preceding then
      let month := month - 1 in
      let preceding :=
        preceding
        - (DAYS_IN_MONTH month + (if (month =? 2) && leapyear then 1 else 0)) in
      (year, month, n - preceding + 1)
    else (year, month, n - preceding + 1).

Definition toordinal (dt : datetime) : Z :=
  ymd2ord (year dt) (month dt) (day dt).

(** The range checks of the [datetime] constructor. *)
Definition fields_ok (dt : datetime) : bool :=
  (MINYEAR <=? year dt) && (year dt <=? MAXYEAR)
  && (1 <=? month dt) && (month dt <=? 12)
  && (1 <=? day dt) && (day dt <=? days_in_month (year dt) (month dt))
  && (0 <=? hour dt) && (hour dt <=? 23)
  && (0 <=? minute dt) && (minute dt <=? 59)
  && (0 <=? second dt) && (second dt <=? 59)
  && (0 <=? microsecond dt) && (microsecond dt <=? 999999)
  && match utcoffset dt with
     | Some off => (-86400 <? off) && (off <? 86400)
     | None => true
     end.

(** *** Formatting *)

Definition fmt2 (n : Z) (k : string) : string :=
  String (Py.digit_char (n / 10 mod 10)) (String (Py.digit_char (n mod 10)) k).

Definition fmt4 (n : Z) (k : string) : string :=
  String (Py.digit_char (n / 1000 mod 10))
    (String (Py.digit_char (n / 100 mod 10)) (fmt2 n k)).

Definition fmt6 (n : Z) (k : string) : string :=
  String (Py.digit_char (n / 100000 mod 10))
    (String (Py.digit_char (n / 10000 mod 10)) (fmt4 n k)).

(** [dt.isoformat()] of a naive datetime:
    [YYYY-MM-DDTHH:MM:SS], followed by [.ffffff] when the microsecond
    field is not zero. *)
Definition isoformat (dt : datetime) : string :=
  fmt4 (year dt) (String "-" (fmt2 (month dt) (String "-" (fmt2 (day dt)
    (String "T" (fmt2 (hour dt) (String ":" (fmt2 (minute dt) (String ":"
      (fmt2 (second dt)
        (if microsecond dt =? 0 then EmptyString
         else String "." (fmt6 (microsecond dt) EmptyString)))))))))))).

(** *** Parsing *)

Definition digit1 (s : string) : option (Z * string) :=
  match s with
  | String c r => d ← Py.digit_val c; Some (d, r)
  | EmptyString => None
  end.

Definition digits2 (s : string) : option (Z * string) :=
  '(a, s) ← digit1 s; '(b, s) ← digit1 s; Some (a * 10 + b, s).

Definition digits3 (s : string) : option (Z * string) :=
  '(a, s) ← digit1 s; '(b, s) ← digits2 s; Some (a * 100 + b, s).

Definition digits4 (s : string) : option (Z * string) :=
  '(a, s) ← digits2 s; '(b, s) ← digits2 s; Some (a * 100 + b, s).

Definition expect (c : ascii) (s : string) : option string :=
  match s with
  | String c' r => if Ascii.eqb c c' then Some r else None
  | EmptyString => None
  end.

(** The fractional part: [.fff] or [.ffffff], or nothing. *)
Definition fraction (s : string) : option (Z * string) :=
  match s with
  | String "." r =>
      '(ms, r) ← digits3 r;
      match digits3 r with
      | Some (us, r') => Some (ms * 1000 + us, r')
      | None => Some (ms * 1000, r)
      end
  | _ => Some (0, s)
  end.

(** The offset: [+HH:MM] or [-HH:MM], or nothing (naive). *)
Definition tzoffset (s : string) : option (option Z) :=
  match s with
  | EmptyString => Some None
  | String sign r =>
      sg ← (if Ascii.eqb sign "+" then Some 1
            else if Ascii.eqb sign "-" then Some (-1) else None);
      '(hh, r) ← digits2 r;
      r ← expect ":" r;
      '(mm, r) ← digits2 r;
      match r with
      | EmptyString => Some (Some (sg * (hh * 3600 + mm * 60)))
      | _ => None
      end
  end.

Definition parse_isoformat (s : string) : option datetime :=
  '(y, s) ← digits4 s;
  s ← expect "-" s;
  '(m, s) ← digits2 s;
  s ← expect "-" s;
  '(d, s) ← digits2 s;
  match s with
  | EmptyString => Some (mkDatetime y m d 0 0 0 0 None)
  | String _ s =>
      '(hh, s) ← digits2 s;
      s ← expect ":" s;
      '(mi, s) ← digits2 s;
      s ← expect ":" s;
      '(ss, s) ← digits2 s;
      '(us, s) ← fraction s;
      tz ← tzoffset s;
      Some (mkDatetime y m d hh mi ss us tz)
  end.

(** [datetime.fromisoformat(s)] on the shapes [isoformat] produces:
    [YYYY-MM-DD], optionally followed by a separator and
    [HH:MM:SS[.fff[fff]]] and an offset [+HH:MM] / [-HH:MM]. *)
Definition fromisoformat (s : string) : outcome datetime :=
  match parse_isoformat s with
  | Some dt =>
      if fields_ok dt then Return dt
      else Raise (ValueError "value out of range")
  | None => Raise (ValueError ("Invalid isoformat string: " +:+ s))
  end.

(** *** Arithmetic *)

(** [timedelta(days=n)]: the day count is limited to nine digits. *)
Definition timedelta_days (n : Z) : outcome Z :=
  if (-999999999 <=? n) && (n <=? 999999999) then Return n
  else Raise (OverflowError "days; must have magnitude <= 999999999").

(** [dt + timedelta(days=n)]: the time of day and the offset are kept,
    the date moves by [n] days and must stay within years 1..9999. *)
Definition add_days (dt : datetime) (n : Z) : outcome datetime :=
  let ord := toordinal dt + n in
  if (0 <? ord) && (ord <=? MAXORDINAL) then
    let '(y, m, d) := ord2ymd ord in
    Return (mkDatetime y m d (hour dt) (minute dt) (second dt)
              (microsecond dt) (utcoffset dt))
  else Raise (OverflowError "date value out of range").

(** Microseconds since 1970-01-01T00:00:00Z.  A naive datetime is read
    in the host's local time, [local] seconds east of UTC. *)
Definition posix_microseconds (local : Z) (dt : datetime) : Z :=
  let off := match utcoffset dt with Some off => off | None => local end in
  (((toordinal dt - EPOCH_ORDINAL) * 86400
    + hour dt * 3600 + minute dt * 60 + second dt - off) * 1000000
   + microsecond dt).

(** [int(dt.timestamp())]: [timestamp] is the above divided by [10^6]
    (taken exactly here), and [int] truncates toward zero. *)
Definition int_timestamp (local : Z) (dt : datetime) : Z :=
  Z.quot (posix_microseconds local dt) 1000000.

End Datetime.

(** ** The DynamoDB client interface (boto3) *)

(** Attribute values in DynamoDB's typed JSON: [{"S": s}], [{"N": n}], ... *)
Inductive AttributeValue :=
| AV_S (s : string)
| AV_N (n : string)
| AV_BOOL (b : bool)
| AV_NULL.

Global Instance AttributeValue_eq_dec : EqDecision AttributeValue.
Proof. solve_decision. Defined.

Abbreviation Item := (gmap string AttributeValue).

(** Keyword arguments of [get_item]. *)
Module GetItem.
Record t := mk {
  TableName : string;
  Key : Item;
}.
End GetItem.

(** The [Update] member of a transaction item, also the keyword arguments
    of [update_item].  Members that the code may leave out are options. *)
Module Update.
Record t := mk {
  TableName : string;
  Key : Item;
  UpdateExpression : string;
  ExpressionAttributeValues : Item;
  ConditionExpression : option string;
  ExpressionAttributeNames : option (gmap string string);
}.
End Update.

(** The [Put] member of a transaction item. *)
Module Put.
Record t := mk {
  TableName : string;
  Item : gmap string AttributeValue;
  ConditionExpression : string;
  ExpressionAttributeNames : gmap string string;
}.
End Put.

Inductive TransactWriteItem :=
| TPut (p : Put.t)
| TUpdate (u : Update.t).

(** A client is whatever answers the three calls the engine makes; [St]
    is the state behind it (the tables of a store, the script of a test
    double).  [get_item] answers with the response's ["Item"], if any. *)
Record DynamoDBClient (St : Type) := mkClient {
  get_item : GetItem.t → St → outcome (option Item) * St;
  transact_write_items : list TransactWriteItem → St → outcome unit * St;
  update_item : Update.t → St → outcome unit * St;
}.
Arguments get_item {St} _ _ _.
Arguments transact_write_items {St} _ _ _.
Arguments update_item {St} _ _ _.

(** ** Effects: store calls and log records, in program order *)

Inductive level := DEBUG | INFO | WARNING | ERROR.

Inductive event :=
| Log (lvl : level) (msg : string)
| CallGetItem (args : GetItem.t)
| CallTransactWriteItems (items : list TransactWriteItem)
| CallUpdateItem (args : Update.t).

Definition is_store_call (e : event) : bool :=
  match e with Log _ _ => false | _ => true end.

Definition store_calls (tr : list event) : list event :=
  List.filter is_store_call tr.

Record World (St : Type) := mkWorld {
  store : St;
  trace : list event;
}.
Arguments mkWorld {St} _ _.
Arguments store {St} _.
Arguments trace {St} _.

(** What the process reads from its host: [os.environ], the clock behind
    [datetime.utcnow()], and the local UTC offset used for naive
    datetimes. *)
Record Host := mkHost {
  environ : gmap string string;
  utcnow : Datetime.datetime;
  local_utcoffset : Z;
}.

(** Computations that raise, log and call the store. *)
Definition M (St A : Type) : Type := World St → outcome A * World St.

Section Monad.
Context {St : Type}.

Definition ret {A} (a : A) : M St A := λ w, (Return a, w).

Definition raise {A} (e : exn) : M St A := λ w, (Raise e, w).

Definition bind {A B} (m : M St A) (k : A → M St B) : M St B :=
  λ w, match m w with
       | (Return a, w') => k a w'
       | (Raise e, w') => (Raise e, w')
       end.

Definition lift {A} (x : outcome A) : M St A := λ w, (x, w).

Definition emit (e : event) : M St unit :=
  λ w, (Return tt, mkWorld (store w) (trace w ++ [e])).

(** [logger.<lvl>(msg, extra=...)]; the [extra] fields are not kept. *)
Definition log (lvl : level) (msg : string) : M St unit := emit (Log lvl msg).

(** [try: body  except Exception as e: handler e] *)
Definition try_except {A} (body : M St A) (handler : exn → M St A) : M St A :=
  λ w, match body w with
       | (Return a, w') => (Return a, w')
       | (Raise e, w') => handler e w'
       end.

(** [try: body  except ClientError as e: handler e.response]; any other
    exception passes through. *)
Definition try_except_ClientError {A} (body : M St A)
    (handler : ErrorResponse → M St A) : M St A :=
  try_except body
    (λ e, match e with ClientError response => handler response | _ => raise e end).

(** A call on the client: recorded, then answered by the client. *)
Definition call {A} (e : event) (op : St → outcome A * St) : M St A :=
  λ w, let '(r, s) := op (store w) in (r, mkWorld s (trace w ++ [e])).

Definition call_get_item (dynamodb : DynamoDBClient St) (args : GetItem.t)
  : M St (option Item) :=
  call (CallGetItem args) (get_item dynamodb args).

Definition call_transact_write_items (dynamodb : DynamoDBClient St)
    (items : list TransactWriteItem) : M St unit :=
  call (CallTransactWriteItems items) (transact_write_items dynamodb items).

Definition call_update_item (dynamodb : DynamoDBClient St) (args : Update.t)
  : M St unit :=
  call (CallUpdateItem args) (update_item dynamodb args).

End Monad.

Declare Scope py_scope.
Delimit Scope py_scope with py.
Notation "x <- m ;; k" := (bind m (λ x, k))
  (at level 100, m at next level, right associativity) : py_scope.
Notation "m ;; k" := (bind m (λ _, k))
  (at level 100, right associativity) : py_scope.

(** ** layer/findings_repository.py *)
Module FindingsRepository.
Local Open Scope py_scope.

(** [PartialFindingData]: a dict from field names to strings. *)
Abbreviation PartialFindingData := (gmap string string).

Section WithClient.
Context {St : Type} (host : Host) (dynamodb : DynamoDBClient St).

Definition get (finding_type finding_id : string) : M St (option Item) :=
  try_except
    (response <- call_get_item dynamodb
       (GetItem.mk (Py.getenv (environ host) "FINDINGS_TABLE_NAME" "")
          (<["findingType" := AV_S finding_type]>
             (<["findingId" := AV_S finding_id]> ∅)));;
     match response with
     | None => ret None
     | Some item => ret (Some item)
     end)
    (λ e, log WARNING "Error retrieving finding data";; ret None).

End WithClient.

Definition build_update_item (host : Host)
    (finding_type finding_id remediation_status execution_id : string)
    (error : option string) : TransactWriteItem :=
  let update_expression := "SET remediationStatus = :rs" in
  let expression_values : Item := <[":rs" := AV_S remediation_status]> ∅ in
  let expression_names : gmap string string := ∅ in
  let '(update_expression, expression_values) :=
    if Py.str_truthy execution_id then
      (update_expression +:+ ", executionId = :eid",
       <[":eid" := AV_S execution_id]> expression_values)
    else (update_expression, expression_values) in
  let '(update_expression, expression_names, expression_values) :=
    match error with
    | Some (String _ _ as err) =>
        (update_expression +:+ ", #err = :err",
         <["#err" := "error"]> expression_names,
         <[":err" := AV_S err]> expression_values)
    | _ => (update_expression, expression_names, expression_values)
    end in
  TUpdate
    (Update.mk
       (Py.getenv (environ host) "FINDINGS_TABLE_NAME" "")
       (<["findingType" := AV_S finding_type]>
          (<["findingId" := AV_S finding_id]> ∅))
       update_expression
       expression_values
       None
       (if bool_decide (expression_names = ∅) then None
        else Some expression_names)).

Section WithClient.
Context {St : Type} (host : Host) (dynamodb : DynamoDBClient St).

Definition update (finding_type finding_id remediation_status
    execution_id : string) (error : option string) : M St unit :=
  let update_item :=
    build_update_item host finding_type finding_id remediation_status
      execution_id error in
  match update_item with
  | TUpdate args => call_update_item dynamodb args
  | TPut _ => raise (KeyError "Update")
  end.

End WithClient.

Definition field_mappings : list string :=
  ["accountId"; "resourceId"; "resourceType"; "resourceTypeNormalized";
   "severity"; "region"; "lastUpdatedBy"].

(** The loop of [extract_partial_finding_data]; [item[field]["S"]]
    raises [KeyError] on an attribute that is not a string. *)
Fixpoint extract_fields (fields : list string) (item : Item)
    (finding_data : PartialFindingData) : outcome PartialFindingData :=
  match fields with
  | [] => Return finding_data
  | field :: fields =>
      match item !! field with
      | None => extract_fields fields item finding_data
      | Some (AV_S v) => extract_fields fields item (<[field := v]> finding_data)
      | Some _ => Raise (KeyError "S")
      end
  end.

Definition extract_partial_finding_data (item : Item)
  : outcome PartialFindingData :=
  extract_fields field_mappings item ∅.

End FindingsRepository.

(** ** layer/history_repository.py *)
Module HistoryRepository.
Local Open Scope py_scope.

Definition FINDING_ID_EXECUTION_ID_KEY := "findingId#executionId".
Definition SORT_KEY_ATTRIBUTE_NAME := "#sortKey".

Record RemediationUpdateRequest := mkRequest {
  finding_id : string;
  execution_id : string;
  remediation_status : string;
  finding_type : string;
  error : option string;
  resource_id : option string;
  resource_type : option string;
  account_id : option string;
  severity : option string;
  region : option string;
  lastUpdatedBy : option string;
}.

(** The dataclass defaults: [None] for the optional fields and
    ["Automated"] for [lastUpdatedBy]. *)
Definition new_request (finding_id execution_id remediation_status
    finding_type : string) : RemediationUpdateRequest :=
  mkRequest finding_id execution_id remediation_status finding_type
    None None None None None None (Some "Automated").

Definition validate {St} (self : RemediationUpdateRequest) : M St bool :=
  if negb (Py.str_truthy (finding_id self))
     || negb (Py.str_truthy (execution_id self))
     || negb (Py.str_truthy (finding_type self))
  then log ERROR "Missing required parameters";; ret false
  else ret true.

Definition calculate_ttl_timestamp (host : Host) (timestamp : string)
  : outcome Z :=
  obind (Py.int (Py.getenv (environ host) "HISTORY_TTL_DAYS" "365")) (λ ttl_days,
  obind (Datetime.fromisoformat (Py.replace "Z" "+00:00" timestamp)) (λ dt,
  obind (Datetime.timedelta_days ttl_days) (λ delta,
  obind (Datetime.add_days dt delta) (λ ttl_dt,
  Return (Datetime.int_timestamp (local_utcoffset host) ttl_dt))))).

(** [if field: item[name] = {"S": field}] *)
Definition set_if_truthy (name : string) (field : option string) (item : Item)
  : Item :=
  match field with
  | Some (String _ _ as v) => <[name := AV_S v]> item
  | _ => item
  end.

Definition build_create_item (host : Host)
    (request : RemediationUpdateRequest)
    (extra_fields : option (gmap string string)) : outcome TransactWriteItem :=
  let timestamp := Datetime.isoformat (utcnow host) +:+ "Z" in
  let sort_key := finding_id request +:+ "#" +:+ execution_id request in
  obind (calculate_ttl_timestamp host timestamp) (λ ttl,
  let item : Item :=
    <["findingType" := AV_S (finding_type request)]> (
    <["findingId" := AV_S (finding_id request)]> (
    <[FINDING_ID_EXECUTION_ID_KEY := AV_S sort_key]> (
    <["executionId" := AV_S (execution_id request)]> (
    <["remediationStatus" := AV_S (remediation_status request)]> (
    <["lastUpdatedTime" := AV_S timestamp]> (
    <["lastUpdatedTime#findingId" :=
        AV_S (timestamp +:+ "#" +:+ finding_id request)]> (
    <["REMEDIATION_CONSTANT" := AV_S "remediation"]> (
    <["lastUpdatedBy" := AV_S (Py.or_else (lastUpdatedBy request) "Automated")]> (
    <["expireAt" := AV_N (Py.str_of_int ttl)]> ∅))))))))) in
  let item := set_if_truthy "accountId" (account_id request) item in
  let item := set_if_truthy "resourceId" (resource_id request) item in
  let item := set_if_truthy "resourceType" (resource_type request) item in
  let item := set_if_truthy "severity" (severity request) item in
  let item := set_if_truthy "region" (region request) item in
  let item := set_if_truthy "error" (error request) item in
  (* for field, value in extra_fields.items(): item[field] = {"S": value} *)
  let item : Item :=
    match extra_fields with
    | Some fields => (AV_S <$> fields) ∪ item
    | None => item
    end in
  Return (TPut
    (Put.mk
       (Py.getenv (environ host) "HISTORY_TABLE_NAME" "")
       item
       "attribute_not_exists(findingType) AND attribute_not_exists(#sortKey)"
       (<[SORT_KEY_ATTRIBUTE_NAME := FINDING_ID_EXECUTION_ID_KEY]> ∅)))).

Definition build_update_item (host : Host)
    (finding_id execution_id remediation_status finding_type : string)
    (error : option string) : TransactWriteItem :=
  let update_expression := "SET remediationStatus = :rs" in
  let expression_values : Item := <[":rs" := AV_S remediation_status]> ∅ in
  let expression_names : gmap string string := ∅ in
  let '(update_expression, expression_names, expression_values) :=
    match error with
    | Some (String _ _ as err) =>
        (update_expression +:+ ", #err = :err",
         <["#err" := "error"]> expression_names,
         <[":err" := AV_S err]> expression_values)
    | _ => (update_expression, expression_names, expression_values)
    end in
  let sort_key := finding_id +:+ "#" +:+ execution_id in
  let expression_names :=
    if bool_decide (expression_names = ∅)
    then <[SORT_KEY_ATTRIBUTE_NAME := FINDING_ID_EXECUTION_ID_KEY]> ∅
    else <[SORT_KEY_ATTRIBUTE_NAME := FINDING_ID_EXECUTION_ID_KEY]> expression_names in
  TUpdate
    (Update.mk
       (Py.getenv (environ host) "HISTORY_TABLE_NAME" "")
       (<["findingType" := AV_S finding_type]>
          (<[FINDING_ID_EXECUTION_ID_KEY := AV_S sort_key]> ∅))
       update_expression
       expression_values
       (Some "attribute_exists(findingType) AND attribute_exists(#sortKey)")
       (Some expression_names)).

Section WithClient.
Context {St : Type} (host : Host) (dynamodb : DynamoDBClient St).

Definition transact_update_finding_and_history
    (finding_type finding_id execution_id remediation_status : string)
    (error : option string) : M St unit :=
  let transact_items :=
    [ FindingsRepository.build_update_item host finding_type finding_id
        remediation_status execution_id error;
      build_update_item host finding_id execution_id remediation_status
        finding_type error ] in
  call_transact_write_items dynamodb transact_items.

Definition transact_create_history_and_update_finding
    (request : RemediationUpdateRequest)
    (extra_fields : option (gmap string string))
    (include_finding_update : bool) : M St unit :=
  let transact_items :=
    if include_finding_update then
      [ FindingsRepository.build_update_item host (finding_type request)
          (finding_id request) (remediation_status request)
          (execution_id request) (error request) ]
    else [] in
  create_item <- lift (build_create_item host request extra_fields);;
  let transact_items := (transact_items ++ [create_item])%list in
  call_transact_write_items dynamodb transact_items.

End WithClient.

End HistoryRepository.

(** ** layer/remediation_data_service.py *)
Module RemediationDataService.
Import HistoryRepository.
Local Open Scope py_scope.


(** The six fields [create_history_with_finding_update] leaves out of
    [extra_fields]. *)
Definition named_fields : list string :=
  ["accountId"; "resourceId"; "resourceType"; "severity"; "region";
   "lastUpdatedBy"].

(** [{k: str(v) for k, v in finding_data.items() if k not in [...]}
     if finding_data else None] *)
Definition extra_fields_of (finding_data : option (gmap string string))
  : option (gmap string string) :=
  match finding_data with
  | Some data =>
      if bool_decide (data = ∅) then None
      else Some (filter (λ kv, kv.1 ∉ named_fields) data)
  | None => None
  end.

(** [bool(finding_data)] *)
Definition finding_data_truthy (finding_data : option (gmap string string))
  : bool :=
  match finding_data with
  | Some data => negb (bool_decide (data = ∅))
  | None => false
  end.

(** [e.response.get("Error", {}).get("Code", "")] *)
Definition error_code_of (response : ErrorResponse) : string :=
  match Error response with
  | Some err => match Code err with Some c => c | None => "" end
  | None => ""
  end.

(** [e.response.get("CancellationReasons", [])] *)
Definition cancellation_reasons_of (response : ErrorResponse) : list ErrorDict :=
  match CancellationReasons response with Some rs => rs | None => [] end.

Definition is_conditional_check_failed (reason : ErrorDict) : bool :=
  bool_decide (Code reason = Some "ConditionalCheckFailed").

Section WithClient.
Context {St : Type} (host : Host) (dynamodb : DynamoDBClient St).

Definition get_finding_data (finding_type finding_id : string)
  : M St (option (gmap string string)) :=
  item <- FindingsRepository.get host dynamodb finding_type finding_id;;
  match item with
  | None => ret None
  | Some item =>
      if bool_decide (item = ∅) then ret None
      else
        data <- lift (FindingsRepository.extract_partial_finding_data item);;
        ret (Some data)
  end.

Definition update_finding_only (request : RemediationUpdateRequest)
  : M St unit :=
  try_except
    (FindingsRepository.update host dynamodb (finding_type request)
       (finding_id request) (remediation_status request)
       (execution_id request) (error request);;
     log DEBUG "Successfully updated finding only after history operation failure")
    (λ e,
       log ERROR "Failed to update finding after history operation failure";;
       raise e).

Definition create_history_with_finding_update
    (request : RemediationUpdateRequest) : M St unit :=
  finding_data <-
    try_except
      (get_finding_data (finding_type request) (finding_id request))
      (λ e,
         log WARNING
           "Could not retrieve finding data for history creation, proceeding with minimal data";;
         ret None);;
  try_except_ClientError
    (let extra_fields := extra_fields_of finding_data in
     transact_create_history_and_update_finding host dynamodb request
       extra_fields (finding_data_truthy finding_data);;
     log INFO "Successfully created remediation history via fallback")
    (λ response,
       let error_code := error_code_of response in
       if bool_decide (error_code = "TransactionCanceledException") then
         update_finding_only request
       else raise (ClientError response)).

Definition try_update_with_existing_history
    (request : RemediationUpdateRequest) : M St bool :=
  try_except_ClientError
    (log DEBUG "Attempting to update existing history item";;
     transact_update_finding_and_history host dynamodb
       (finding_type request) (finding_id request) (execution_id request)
       (remediation_status request) (error request);;
     log DEBUG "Successfully updated existing history item via transaction";;
     ret true)
    (λ response,
       let error_code := error_code_of response in
       log WARNING "Transaction failed while trying to update existing history";;
       if bool_decide (error_code = "TransactionCanceledException")
          && existsb is_conditional_check_failed
               (cancellation_reasons_of response)
       then
         log WARNING
           "History item not found due to conditional check failure, will attempt fallback creation";;
         ret false
       else raise (ClientError response)).

(** [dynamodb] stands for
    [AWSCachedClient(AWS_REGION).get_connection("dynamodb")]. *)
Definition update_remediation_status_and_history
    (request : RemediationUpdateRequest) : M St unit :=
  valid <- validate request;;
  if negb valid then ret tt
  else
    try_except
      (log DEBUG "Processing remediation status update";;
       success <- try_update_with_existing_history request;;
       if negb success then
         log INFO
           "History item not found, creating new history record via fallback";;
         create_history_with_finding_update request
       else ret tt)
      (λ e,
         (if is_ClientError e
          then log ERROR "Failed to update remediation status"
          else log ERROR "Unexpected error updating remediation status");;
         raise e).

End WithClient.

End RemediationDataService.

(** ** The backing store *)

(** Modelled from the spec: the backing store itself is an external
    service, not code of this repository; section 6 of the specification
    gives the contract the engine consumes ([getItem], [transactWrite],
    conditional writes with [attribute_exists] / [attribute_not_exists]
    and per-item failure reasons).  The model below implements that
    contract with DynamoDB's documented behaviour for the requests the
    engine builds: an [Update] without a matching row creates it, a
    transaction applies all of its items or none, and a cancelled
    transaction reports one reason per item. *)
Module Store.

Record Table := mkTable {
  hash_key : string;
  range_key : string;
  rows : gmap (string * string) Item;
}.

Abbreviation t := (gmap string Table).

Definition client_error (code message : string)
    (reasons : option (list ErrorDict)) : exn :=
  ClientError (mkErrorResponse (Some (mkErrorDict (Some code) (Some message))) reasons).

Definition validation_exception (message : string) : exn :=
  client_error "ValidationException" message None.

Definition find_table (s : t) (name : string) : outcome Table :=
  match s !! name with
  | Some tbl => Return tbl
  | None =>
      Raise (client_error "ResourceNotFoundException"
               "Requested resource not found" None)
  end.

(** The primary key held by a set of attributes: both key attributes
    must be non-empty strings. *)
Definition key_of (tbl : Table) (attrs : Item) : outcome (string * string) :=
  match attrs !! hash_key tbl, attrs !! range_key tbl with
  | Some (AV_S (String _ _ as h)), Some (AV_S (String _ _ as r)) => Return (h, r)
  | _, _ =>
      Raise (validation_exception
               "The provided key element does not match the schema")
  end.

(** [#name] placeholders are looked up in [ExpressionAttributeNames]. *)
Definition resolve_name (names : gmap string string) (n : string) : option string :=
  match n with
  | String "#" _ => names !! n
  | _ => Some n
  end.

Inductive condition :=
| AttributeExists (attr : string)
| AttributeNotExists (attr : string).

(** [f(arg)] with the given function name. *)
Definition call_argument (fname s : string) : option string :=
  rest ← Py.strip_prefix (fname +:+ "(") s;
  match String.rev rest with
  | String ")" r => Some (String.rev r)
  | _ => None
  end.

Definition parse_conjunct (names : gmap string string) (s : string)
  : option condition :=
  match call_argument "attribute_exists" s with
  | Some a => AttributeExists <$> resolve_name names a
  | None =>
      a ← call_argument "attribute_not_exists" s;
      AttributeNotExists <$> resolve_name names a
  end.

(** A condition expression: conjuncts joined by [" AND "]. *)
Definition parse_condition (names : gmap string string) (s : string)
  : option (list condition) :=
  mapM (parse_conjunct names) (Py.split " AND " s).

Definition holds (row : option Item) (c : condition) : bool :=
  match c with
  | AttributeExists a =>
      match row with Some it => bool_decide (is_Some (it !! a)) | None => false end
  | AttributeNotExists a =>
      match row with Some it => bool_decide (it !! a = None) | None => true end
  end.

(** One [path = :value] action of a [SET] clause. *)
Definition parse_action (names : gmap string string) (values : Item) (s : string)
  : option (string * AttributeValue) :=
  match Py.split " = " s with
  | [path; val] =>
      attr ← resolve_name names path;
      v ← values !! val;
      Some (attr, v)
  | _ => None
  end.

(** An update expression: ["SET "] followed by actions joined by [", "]. *)
Definition parse_update (names : gmap string string) (values : Item) (s : string)
  : option (list (string * AttributeValue)) :=
  body ← Py.strip_prefix "SET " s;
  mapM (parse_action names values) (Py.split ", " body).

Definition apply_actions (actions : list (string * AttributeValue)) (it : Item)
  : Item :=
  foldl (λ acc kv, <[kv.1 := kv.2]> acc) it actions.

Definition or_invalid {A} (x : option A) (message : string) : outcome A :=
  match x with
  | Some a => Return a
  | None => Raise (validation_exception message)
  end.

Definition names_of (names : option (gmap string string)) : gmap string string :=
  match names with Some m => m | None => ∅ end.

(** A validated write: the table it goes to, the row key, whether its
    condition holds on the current row, and the row it leaves. *)
Record write := mkWrite {
  w_table : string;
  w_key : string * string;
  w_condition_ok : bool;
  w_row : Item;
}.

Definition prepare_update (s : t) (u : Update.t) : outcome write :=
  obind (find_table s (Update.TableName u)) (λ tbl,
  obind (key_of tbl (Update.Key u)) (λ k,
  let names := names_of (Update.ExpressionAttributeNames u) in
  let row := rows tbl !! k in
  obind (match Update.ConditionExpression u with
         | Some c =>
             obind (or_invalid (parse_condition names c)
                      "Invalid ConditionExpression")
                   (λ cs, Return (forallb (holds row) cs))
         | None => Return true
         end) (λ ok,
  obind (or_invalid
           (parse_update names (Update.ExpressionAttributeValues u)
              (Update.UpdateExpression u))
           "Invalid UpdateExpression") (λ actions,
  if existsb (λ kv, bool_decide (kv.1 = hash_key tbl)
                    || bool_decide (kv.1 = range_key tbl)) actions
  then Raise (validation_exception
                "Cannot update attribute. This attribute is part of the key")
  else
    let base := match row with Some it => it | None => Update.Key u end in
    Return (mkWrite (Update.TableName u) k ok (apply_actions actions base)))))).

Definition prepare_put (s : t) (p : Put.t) : outcome write :=
  obind (find_table s (Put.TableName p)) (λ tbl,
  obind (key_of tbl (Put.Item p)) (λ k,
  let row := rows tbl !! k in
  obind (or_invalid
           (parse_condition (Put.ExpressionAttributeNames p)
              (Put.ConditionExpression p))
           "Invalid ConditionExpression") (λ cs,
  Return (mkWrite (Put.TableName p) k (forallb (holds row) cs) (Put.Item p))))).

Definition prepare (s : t) (i : TransactWriteItem) : outcome write :=
  match i with
  | TUpdate u => prepare_update s u
  | TPut p => prepare_put s p
  end.

Fixpoint prepare_all (s : t) (items : list TransactWriteItem)
  : outcome (list write) :=
  match items with
  | [] => Return []
  | i :: items =>
      obind (prepare s i) (λ w,
      obind (prepare_all s items) (λ ws, Return (w :: ws)))
  end.

Definition commit (s : t) (w : write) : t :=
  match s !! w_table w with
  | Some tbl =>
      <[w_table w :=
          mkTable (hash_key tbl) (range_key tbl)
            (<[w_key w := w_row w]> (rows tbl))]> s
  | None => s
  end.

Definition reason_of (w : write) : ErrorDict :=
  if w_condition_ok w then mkErrorDict (Some "None") None
  else mkErrorDict (Some "ConditionalCheckFailed")
         (Some "The conditional request failed").

Definition get_item (args : GetItem.t) (s : t) : outcome (option Item) * t :=
  (obind (find_table s (GetItem.TableName args)) (λ tbl,
   obind (key_of tbl (GetItem.Key args)) (λ k,
   Return (rows tbl !! k))), s).

Definition transact_write_items (items : list TransactWriteItem) (s : t)
  : outcome unit * t :=
  match prepare_all s items with
  | Raise e => (Raise e, s)
  | Return ws =>
      if forallb w_condition_ok ws then (Return tt, foldl commit s ws)
      else
        (Raise (client_error "TransactionCanceledException"
                  "Transaction cancelled, please refer cancellation reasons for specific reasons"
                  (Some (reason_of <$> ws))), s)
  end.

Definition update_item (args : Update.t) (s : t) : outcome unit * t :=
  match prepare_update s args with
  | Raise e => (Raise e, s)
  | Return w =>
      if w_condition_ok w then (Return tt, commit s w)
      else
        (Raise (client_error "ConditionalCheckFailedException"
                  "The conditional request failed" None), s)
  end.

Definition client : DynamoDBClient t :=
  mkClient t get_item transact_write_items update_item.

(** Reading a row back, by table name and key. *)
Definition row (s : t) (table : string) (k : string * string) : option Item :=
  tbl ← s !! table; rows tbl !! k.

End Store.

(** ** A scripted client

    A test double in the manner of the repository's mocked tests: every
    call is answered from a fixed script, whatever its arguments. *)
Module Scripted.

Record script := mkScript {
  on_get_item : outcome (option Item);
  on_transact_write_items : outcome unit;
  on_update_item : outcome unit;
}.

Definition client (sc : script) : DynamoDBClient unit :=
  mkClient unit
    (λ _ s, (on_get_item sc, s))
    (λ _ s, (on_transact_write_items sc, s))
    (λ _ s, (on_update_item sc, s)).

Definition cancelled (reasons : list (option string)) : exn :=
  ClientError
    (mkErrorResponse
       (Some (mkErrorDict (Some "TransactionCanceledException") None))
       (Some ((λ c, mkErrorDict c None) <$> reasons))).

End Scripted.

(** ** Vocabulary of the statements *)


(** A request lacking one of its three identifying fields. *)
Definition missing_required (r : HistoryRepository.RemediationUpdateRequest) : Prop :=
  HistoryRepository.finding_id r = ""
  ∨ HistoryRepository.execution_id r = ""
  ∨ HistoryRepository.finding_type r = "".

(** The finding update every tier builds for a request. *)
Definition finding_update (host : Host)
    (r : HistoryRepository.RemediationUpdateRequest) : TransactWriteItem :=
  FindingsRepository.build_update_item host (HistoryRepository.finding_type r)
    (HistoryRepository.finding_id r) (HistoryRepository.remediation_status r)
    (HistoryRepository.execution_id r) (HistoryRepository.error r).

(** The two items of the Tier-1 transaction, in the order they are sent. *)
Definition tier1_items (host : Host)
    (r : HistoryRepository.RemediationUpdateRequest) : list TransactWriteItem :=
  [ finding_update host r;
    HistoryRepository.build_update_item host (HistoryRepository.finding_id r)
      (HistoryRepository.execution_id r) (HistoryRepository.remediation_status r)
      (HistoryRepository.finding_type r) (HistoryRepository.error r) ].

(** The [get_item] request of the enrichment read. *)
Definition finding_lookup (host : Host)
    (r : HistoryRepository.RemediationUpdateRequest) : GetItem.t :=
  GetItem.mk (Py.getenv (environ host) "FINDINGS_TABLE_NAME" "")
    (<["findingType" := AV_S (HistoryRepository.finding_type r)]>
       (<["findingId" := AV_S (HistoryRepository.finding_id r)]> ∅)).

(** The clock returns a naive datetime whose fields are in range. *)
Definition clock_ok (host : Host) : Prop :=
  Datetime.fields_ok (utcnow host) = true
  ∧ Datetime.utcoffset (utcnow host) = None.

(** [HISTORY_TTL_DAYS] (or its default) reads as the integer [d], and the
    clock moved by [d] days is still a date of years 1..9999. *)
Definition ttl_days_ok (host : Host) (d : Z) : Prop :=
  Py.int (Py.getenv (environ host) "HISTORY_TTL_DAYS" "365") = Return d
  ∧ (-999999999 ≤ d ≤ 999999999)%Z
  ∧ (0 < Datetime.toordinal (utcnow host) + d ≤ Datetime.MAXORDINAL)%Z.

Definition host_ok (host : Host) : Prop :=
  clock_ok host ∧ ∃ d, ttl_days_ok host d.

(** [dt], read as UTC. *)
Definition with_utc (dt : Datetime.datetime) : Datetime.datetime :=
  Datetime.mkDatetime (Datetime.year dt) (Datetime.month dt) (Datetime.day dt)
    (Datetime.hour dt) (Datetime.minute dt) (Datetime.second dt)
    (Datetime.microsecond dt) (Some 0%Z).

(** [isoformat] with a suffix placed after the fraction. *)
Definition isoformat_with (dt : Datetime.datetime) (suffix : string) : string :=
  Datetime.fmt4 (Datetime.year dt) (String "-" (Datetime.fmt2 (Datetime.month dt)
    (String "-" (Datetime.fmt2 (Datetime.day dt) (String "T"
      (Datetime.fmt2 (Datetime.hour dt) (String ":"
        (Datetime.fmt2 (Datetime.minute dt) (String ":"
          (Datetime.fmt2 (Datetime.second dt)
            (if (Datetime.microsecond dt =? 0)%Z then suffix
             else String "." (Datetime.fmt6 (Datetime.microsecond dt) suffix)))))))))))).

(** Checking a boolean predicate on every integer of [base, base + p). *)
Fixpoint range_all (p : positive) (P : Z → bool) (base : Z) : bool :=
  match p with
  | xH => P base
  | xO q => range_all q P base && range_all q P (base + Z.pos q)
  | xI q =>
      P base && range_all q P (base + 1) && range_all q P (base + 1 + Z.pos q)
  end.

(** Day [n] of a 400-year cycle converts to a date and back. *)
Definition cycle_check (n : Z) : bool :=
  let '(y, m, d) := Datetime.ord2ymd (n + 1) in
  (Datetime.ymd2ord y m d =? n + 1)%Z.

(** Finding data as the enrichment read yields it: absent, or a subset of
    the seven harvested fields. *)
Definition harvested (fd : option (gmap string string)) : Prop :=
  ∀ data k, fd = Some data → is_Some (data !! k)
            → k ∈ FindingsRepository.field_mappings.

(** The enrichment read of Tier 2 with its exception handler: the first
    statement of [create_history_with_finding_update]. *)
Definition enrichment {St} (host : Host) (dynamodb : DynamoDBClient St)
    (request : HistoryRepository.RemediationUpdateRequest)
  : M St (option (gmap string string)) :=
  try_except
    (RemediationDataService.get_finding_data host dynamodb
       (HistoryRepository.finding_type request)
       (HistoryRepository.finding_id request))
    (λ e,
       bind (log WARNING
               "Could not retrieve finding data for history creation, proceeding with minimal data")
            (λ _, ret None)).

(** The transaction Tier 2 sends, given what the enrichment read returned
    and the create item [p]. *)
Definition tier2_items (host : Host)
    (request : HistoryRepository.RemediationUpdateRequest)
    (fd : option (gmap string string)) (p : Put.t) : list TransactWriteItem :=
  ((if RemediationDataService.finding_data_truthy fd
    then [finding_update host request] else [])
   ++ [TPut p])%list.

(** ** Concrete inputs used by the examples *)
Module Example.
Import HistoryRepository.

(** No environment variable set, the clock at midnight of 1 January
    2024, local time equal to UTC. *)
Definition host : Host :=
  mkHost ∅ (Datetime.mkDatetime 2024 1 1 0 0 0 0 None) 0.

(** The deployment of the repository's tests. *)
Definition test_host : Host :=
  mkHost
    (<["FINDINGS_TABLE_NAME" := "test-findings-table"]>
       (<["HISTORY_TABLE_NAME" := "test-history-table"]> ∅))
    (Datetime.mkDatetime 2024 1 1 0 0 0 0 None) 0.

Definition queued : RemediationUpdateRequest :=
  new_request "f1" "e1" "IN_PROGRESS" "EC2.1".

Definition failed : RemediationUpdateRequest :=
  mkRequest "f1" "e1" "FAILED" "EC2.1" (Some "Lambda function timeout")
    None None (Some "222222222222") None None (Some "Automated").

Definition succeeded : RemediationUpdateRequest :=
  new_request "f1" "e1" "SUCCESS" "EC2.1".

(** A Finding record whose metadata disagrees with [failed]. *)
Definition finding : Item :=
  <["findingType" := AV_S "EC2.1"]> (
  <["findingId" := AV_S "f1"]> (
  <["accountId" := AV_S "111111111111"]> (
  <["remediationStatus" := AV_S "NOT_STARTED"]> (
  <["resourceTypeNormalized" := AV_S "EC2Instance"]> ∅)))).

Definition empty_world : World unit := mkWorld tt [].

(** Tier 1 is cancelled although only the Finding item (index 0)
    reports a conditional-check failure. *)
Definition finding_only_failure : Scripted.script :=
  Scripted.mkScript (Return None)
    (Raise (Scripted.cancelled [Some "ConditionalCheckFailed"; Some "None"]))
    (Return tt).

(** The enrichment read fails; the Tier-2 write then succeeds. *)
Definition read_fails : Scripted.script :=
  Scripted.mkScript (Raise (OtherException "read timed out")) (Return tt)
    (Return tt).

(** Every transaction is cancelled; the read returns [finding] and the
    plain update fails. *)
Definition all_cancelled : Scripted.script :=
  Scripted.mkScript (Return (Some finding))
    (Raise (Scripted.cancelled [Some "None"; Some "ConditionalCheckFailed"]))
    (Raise (OtherException "throttled")).

(** The read returns [finding]; writes succeed. *)
Definition finding_found : Scripted.script :=
  Scripted.mkScript (Return (Some finding)) (Return tt) (Return tt).

End Example.

(** ** Vocabulary about the store *)

Definition findings_table (host : Host) : string :=
  Py.getenv (environ host) "FINDINGS_TABLE_NAME" "".

Definition history_table (host : Host) : string :=
  Py.getenv (environ host) "HISTORY_TABLE_NAME" "".

(** The primary key of the History record of a request. *)
Definition history_key (r : HistoryRepository.RemediationUpdateRequest)
  : string * string :=
  (HistoryRepository.finding_type r,
   HistoryRepository.finding_id r +:+ "#" +:+ HistoryRepository.execution_id r).

(** A store as the solution deploys it: the findings table and the history
    table are two tables with the key schemas of the repository, and every
    history row holds the key it is stored under. *)
Record deployed (host : Host) (s : Store.t) : Prop := mkDeployed {
  tables_differ : findings_table host ≠ history_table host;
  findings_present :
    ∃ tf, s !! findings_table host = Some tf
          ∧ Store.hash_key tf = "findingType"
          ∧ Store.range_key tf = "findingId";
  history_present :
    ∃ th, s !! history_table host = Some th
          ∧ Store.hash_key th = "findingType"
          ∧ Store.range_key th = "findingId#executionId"
          ∧ ∀ k it, Store.rows th !! k = Some it → Store.key_of th it = Return k;
}.

(** The rows of the history table. *)
Definition history_rows (host : Host) (s : Store.t) : gmap (string * string) Item :=
  match s !! history_table host with
  | Some th => Store.rows th
  | None => ∅
  end.

Module ExampleStore.

(** The two tables of the repository's tests, holding one Finding record
    and no History record. *)
Definition initial : Store.t :=
  <["test-findings-table" :=
      Store.mkTable "findingType" "findingId"
        (<[("EC2.1", "f1") := Example.finding]> ∅)]>
    (<["test-history-table" :=
         Store.mkTable "findingType" "findingId#executionId" ∅]> ∅).

End ExampleStore.

(** * Proofs *)

(** ** Python runtime facts *)

Lemma str_truthy_false (s : string) : Py.str_truthy s = false ↔ s = "".
Proof. destruct s; simpl; split; congruence. Qed.

Lemma str_truthy_true (s : string) : Py.str_truthy s = true ↔ s ≠ "".
Proof. destruct s; simpl; split; congruence. Qed.

Lemma append_String (c : ascii) (x s : string) :
  String c x +:+ s = String c (x +:+ s).
Proof. reflexivity. Qed.

Lemma existsb_lookup {A} (f : A → bool) (l : list A) :
  existsb f l = true ↔ ∃ i x, l !! i = Some x ∧ f x = true.
Proof.
  rewrite existsb_exists. split.
  - intros (x & Hin & Hf).
    apply list_elem_of_In, list_elem_of_lookup in Hin as [i Hi]. eauto.
  - intros (i & x & Hi & Hf). exists x. split; [|done].
    apply list_elem_of_In, list_elem_of_lookup. eauto.
Qed.

Section Digits.
Import Datetime.
Local Open Scope Z_scope.

Lemma digit_cases (d : Z) :
  0 ≤ d < 10 →
  d = 0 ∨ d = 1 ∨ d = 2 ∨ d = 3 ∨ d = 4 ∨ d = 5 ∨ d = 6 ∨ d = 7 ∨ d = 8 ∨ d = 9.
Proof. lia. Qed.

Ltac each_digit d H :=
  let Hcases := fresh "Hcases" in
  pose proof (digit_cases d H) as Hcases;
  repeat (destruct Hcases as [Hcases|Hcases]; [subst d; reflexivity|]);
  subst d; reflexivity.

Lemma digit_val_char (d : Z) :
  0 ≤ d < 10 → Py.digit_val (Py.digit_char d) = Some d.
Proof. intros H. each_digit d H. Qed.

Lemma digit_char_not_Z (d : Z) :
  0 ≤ d < 10 → Ascii.eqb "Z" (Py.digit_char d) = false.
Proof. intros H. each_digit d H. Qed.

Lemma mod10_range (n : Z) : 0 ≤ n mod 10 < 10.
Proof. apply Z.mod_pos_bound. lia. Qed.

Lemma digit1_char (d : Z) (k : string) :
  digit1 (String (Py.digit_char (d mod 10)) k) = Some (d mod 10, k).
Proof. unfold digit1. by rewrite digit_val_char by apply mod10_range. Qed.

Lemma two_digits (n : Z) : (n / 10 mod 10) * 10 + n mod 10 = n mod 100.
Proof.
  pose proof (Z.div_mod n 10 ltac:(lia)).
  pose proof (Z.div_mod (n / 10) 10 ltac:(lia)).
  pose proof (mod10_range n). pose proof (mod10_range (n / 10)).
  apply (Z.mod_unique_pos _ _ (n / 10 / 10)); lia.
Qed.

Lemma four_digits (n : Z) :
  ((n / 1000 mod 10) * 10 + n / 100 mod 10) * 100 + n mod 100 = n mod 10000.
Proof.
  pose proof (Z.div_mod n 100 ltac:(lia)).
  pose proof (two_digits (n / 100)) as H2.
  rewrite Z.div_div in H2 by lia. change (100 * 10) with 1000 in H2. rewrite H2.
  pose proof (Z.div_mod (n / 100) 100 ltac:(lia)).
  pose proof (Z.mod_pos_bound n 100 ltac:(lia)).
  pose proof (Z.mod_pos_bound (n / 100) 100 ltac:(lia)).
  apply (Z.mod_unique_pos _ _ (n / 100 / 100)); lia.
Qed.

Lemma six_digits (n : Z) :
  ((n / 100000 mod 10) * 100 + ((n / 10000 mod 10) * 10 + n / 1000 mod 10)) * 1000
  + ((n / 100 mod 10) * 100 + ((n / 10 mod 10) * 10 + n mod 10))
  = n mod 1000000.
Proof.
  pose proof (two_digits n) as H1.
  pose proof (two_digits (n / 1000)) as H2.
  rewrite !Z.div_div in H2 by lia. change (1000 * 10) with 10000 in H2.
  pose proof (Z.div_mod n 100 ltac:(lia)).
  pose proof (Z.div_mod (n / 100) 10 ltac:(lia)).
  pose proof (Z.div_mod (n / 1000) 100 ltac:(lia)).
  pose proof (Z.div_mod (n / 100000) 10 ltac:(lia)).
  assert (n / 100 / 10 = n / 1000) as E1 by (rewrite Z.div_div by lia; done).
  assert (n / 1000 / 100 = n / 100000) as E2 by (rewrite Z.div_div by lia; done).
  rewrite E1 in *. rewrite E2 in *.
  pose proof (Z.mod_pos_bound n 100 ltac:(lia)).
  pose proof (Z.mod_pos_bound (n / 1000) 100 ltac:(lia)).
  pose proof (mod10_range (n / 100)). pose proof (mod10_range (n / 100000)).
  apply (Z.mod_unique_pos _ _ (n / 100000 / 10)); lia.
Qed.

Ltac step_digit := rewrite digit1_char; cbn [mbind option_bind].

Lemma digits2_chars (a b : Z) (k : string) :
  digits2 (String (Py.digit_char (a mod 10)) (String (Py.digit_char (b mod 10)) k))
  = Some (a mod 10 * 10 + b mod 10, k).
Proof. unfold digits2. by do 2 step_digit. Qed.

Lemma digits2_fmt2 (n : Z) (k : string) :
  digits2 (fmt2 n k) = Some (n mod 100, k).
Proof. unfold fmt2. by rewrite digits2_chars, two_digits. Qed.

Lemma digits4_fmt4 (n : Z) (k : string) :
  digits4 (fmt4 n k) = Some (n mod 10000, k).
Proof.
  unfold digits4, fmt4. rewrite digits2_chars. cbn [mbind option_bind].
  rewrite digits2_fmt2. cbn [mbind option_bind]. by rewrite four_digits.
Qed.

Lemma fraction_fmt6 (n : Z) (k : string) :
  fraction (String "." (fmt6 n k)) = Some (n mod 1000000, k).
Proof.
  unfold fraction, fmt6, fmt4, fmt2, digits3, digits2.
  do 3 step_digit. do 3 step_digit. by rewrite six_digits.
Qed.

(** *** [replace("Z", "+00:00")] passes over digits *)

Lemma replace_Z_char (new : string) (c : ascii) (k : string) :
  Ascii.eqb "Z" c = false →
  Py.replace_from "Z" new 0 (String c k) = String c (Py.replace_from "Z" new 0 k).
Proof. intros H. cbn [Py.replace_from Py.strip_prefix]. by rewrite H. Qed.

Lemma replace_Z_fmt2 (new : string) (n : Z) (k : string) :
  Py.replace_from "Z" new 0 (fmt2 n k) = fmt2 n (Py.replace_from "Z" new 0 k).
Proof.
  unfold fmt2.
  by rewrite !replace_Z_char by (apply digit_char_not_Z, mod10_range).
Qed.

Lemma replace_Z_fmt4 (new : string) (n : Z) (k : string) :
  Py.replace_from "Z" new 0 (fmt4 n k) = fmt4 n (Py.replace_from "Z" new 0 k).
Proof.
  unfold fmt4.
  by rewrite !replace_Z_char, replace_Z_fmt2 by (apply digit_char_not_Z, mod10_range).
Qed.

Lemma replace_Z_fmt6 (new : string) (n : Z) (k : string) :
  Py.replace_from "Z" new 0 (fmt6 n k) = fmt6 n (Py.replace_from "Z" new 0 k).
Proof.
  unfold fmt6.
  by rewrite !replace_Z_char, replace_Z_fmt4 by (apply digit_char_not_Z, mod10_range).
Qed.

(** *** [isoformat] and [fromisoformat] *)

Lemma isoformat_app (dt : datetime) (s : string) :
  isoformat dt +:+ s = isoformat_with dt s.
Proof.
  unfold isoformat, isoformat_with, fmt4, fmt2.
  repeat rewrite append_String.
  destruct (microsecond dt =? 0); [done|].
  unfold fmt6, fmt4, fmt2. by repeat rewrite append_String.
Qed.

Lemma replace_Z_isoformat (dt : datetime) :
  Py.replace "Z" "+00:00" (isoformat dt +:+ "Z") = isoformat_with dt "+00:00".
Proof.
  rewrite isoformat_app. unfold Py.replace, isoformat_with.
  repeat (rewrite ?replace_Z_fmt4, ?replace_Z_fmt2; rewrite ?replace_Z_char by done).
  destruct (microsecond dt =? 0); [done|].
  rewrite replace_Z_char by done. by rewrite replace_Z_fmt6.
Qed.

Lemma fields_ok_ranges (dt : datetime) :
  fields_ok dt = true →
  1 ≤ year dt ≤ 9999 ∧ 1 ≤ month dt ≤ 12
  ∧ 1 ≤ day dt ≤ days_in_month (year dt) (month dt)
  ∧ 0 ≤ hour dt ≤ 23 ∧ 0 ≤ minute dt ≤ 59 ∧ 0 ≤ second dt ≤ 59
  ∧ 0 ≤ microsecond dt ≤ 999999.
Proof.
  unfold fields_ok, MINYEAR, MAXYEAR. rewrite !andb_true_iff, !Z.leb_le. tauto.
Qed.

Lemma days_in_month_le (y m : Z) : days_in_month y m ≤ 31.
Proof.
  unfold days_in_month. destruct (_ && _); [lia|].
  unfold DAYS_IN_MONTH.
  destruct m as [|p|p]; try lia.
  repeat (destruct p as [p|p|]; try lia).
Qed.

Lemma parse_isoformat_utc (dt : datetime) :
  fields_ok dt = true →
  parse_isoformat (isoformat_with dt "+00:00") = Some (with_utc dt).
Proof.
  intros Hok.
  pose proof (fields_ok_ranges dt Hok) as (Hy & Hm & Hd & Hh & Hmi & Hs & Hus).
  pose proof (days_in_month_le (year dt) (month dt)).
  unfold parse_isoformat, isoformat_with.
  rewrite digits4_fmt4. cbn [mbind option_bind expect Ascii.eqb Bool.eqb].
  do 5 (rewrite digits2_fmt2; cbn [mbind option_bind expect Ascii.eqb Bool.eqb]).
  rewrite !Z.mod_small by lia.
  destruct (microsecond dt =? 0) eqn:Hz.
  - apply Z.eqb_eq in Hz. cbn. unfold with_utc. by rewrite Hz.
  - rewrite fraction_fmt6. cbn. rewrite Z.mod_small by lia. done.
Qed.

(** The string [build_create_item] hands to [calculate_ttl_timestamp]
    always parses, to the clock's reading taken as UTC. *)
Lemma fromisoformat_isoformat (dt : datetime) :
  fields_ok dt = true → utcoffset dt = None →
  fromisoformat (Py.replace "Z" "+00:00" (isoformat dt +:+ "Z"))
  = Return (with_utc dt).
Proof.
  intros Hok Hnaive. rewrite replace_Z_isoformat. unfold fromisoformat.
  rewrite parse_isoformat_utc by done.
  assert (fields_ok (with_utc dt) = true) as ->; [|done].
  unfold fields_ok in *.
  cbn [with_utc year month day hour minute second microsecond utcoffset].
  rewrite Hnaive in Hok. rewrite andb_true_r in Hok. by rewrite Hok.
Qed.

End Digits.

(** ** Calendar arithmetic: ordinals convert to dates and back *)
Section Calendar.
Import Datetime.
Local Open Scope Z_scope.

Lemma range_all_spec (P : Z → bool) (p : positive) :
  ∀ base i, range_all p P base = true → base ≤ i < base + Z.pos p → P i = true.
Proof.
  induction p as [q IH|q IH|]; intros base i Hall Hi; cbn [range_all] in Hall.
  - apply andb_true_iff in Hall as [Hall H3].
    apply andb_true_iff in Hall as [H1 H2].
    destruct (decide (i = base)) as [->|]; [done|].
    destruct (decide (i < base + 1 + Z.pos q)).
    + apply (IH (base + 1)); [done|lia].
    + apply (IH (base + 1 + Z.pos q)); [done|lia].
  - apply andb_true_iff in Hall as [H1 H2].
    destruct (decide (i < base + Z.pos q)).
    + apply (IH base); [done|lia].
    + apply (IH (base + Z.pos q)); [done|lia].
  - assert (i = base) as -> by lia. done.
Qed.

(** The 146097 days of one 400-year cycle, checked by evaluation. *)
Lemma cycle_roundtrip (n : Z) : 0 ≤ n < 146097 → cycle_check n = true.
Proof.
  intros Hn. apply (range_all_spec cycle_check 146097 0); [|lia].
  vm_compute. reflexivity.
Qed.

Lemma is_leap_shift (y c : Z) : is_leap (y + 400 * c) = is_leap y.
Proof.
  unfold is_leap.
  replace (y + 400 * c) with (y + (100 * c) * 4) at 1 by lia.
  replace (y + 400 * c) with (y + (4 * c) * 100) at 1 by lia.
  replace (y + 400 * c) with (y + c * 400) by lia.
  by rewrite !Z.mod_add by lia.
Qed.

Lemma days_before_year_shift (y c : Z) :
  days_before_year (y + 400 * c) = days_before_year y + 146097 * c.
Proof.
  unfold days_before_year. cbv zeta.
  assert ((y + 400 * c - 1) / 4 = (y - 1) / 4 + 100 * c) as ->.
  { replace (y + 400 * c - 1) with (y - 1 + (100 * c) * 4) by lia.
    by rewrite Z.div_add by lia. }
  assert ((y + 400 * c - 1) / 100 = (y - 1) / 100 + 4 * c) as ->.
  { replace (y + 400 * c - 1) with (y - 1 + (4 * c) * 100) by lia.
    by rewrite Z.div_add by lia. }
  assert ((y + 400 * c - 1) / 400 = (y - 1) / 400 + c) as ->.
  { replace (y + 400 * c - 1) with (y - 1 + c * 400) by lia.
    by rewrite Z.div_add by lia. }
  lia.
Qed.

Lemma ymd2ord_shift (y m d c : Z) :
  ymd2ord (y + 400 * c) m d = ymd2ord y m d + 146097 * c.
Proof.
  unfold ymd2ord, days_before_month.
  rewrite is_leap_shift, days_before_year_shift. lia.
Qed.

Lemma ord2ymd_cycle (k : Z) :
  ord2ymd k =
    let '(y, m, d) := ord2ymd ((k - 1) mod 146097 + 1) in
    (y + 400 * ((k - 1) / 146097), m, d).
Proof.
  pose proof (Z.mod_pos_bound (k - 1) 146097 ltac:(lia)) as Hr.
  unfold ord2ymd. cbv zeta.
  replace ((k - 1) mod 146097 + 1 - 1) with ((k - 1) mod 146097) by lia.
  rewrite (Z.mod_small ((k - 1) mod 146097) 146097) by lia.
  rewrite (Z.div_small ((k - 1) mod 146097) 146097) by lia.
  repeat match goal with |- context [if ?b then _ else _] => destruct b end;
    f_equal; try f_equal; lia.
Qed.

Lemma ymd2ord_ord2ymd (k : Z) :
  let '(y, m, d) := ord2ymd k in ymd2ord y m d = k.
Proof.
  rewrite ord2ymd_cycle.
  pose proof (Z.mod_pos_bound (k - 1) 146097 ltac:(lia)) as Hr.
  pose proof (cycle_roundtrip _ Hr) as Hc. unfold cycle_check in Hc.
  destruct (ord2ymd ((k - 1) mod 146097 + 1)) as [[y m] d].
  apply Z.eqb_eq in Hc. rewrite ymd2ord_shift, Hc.
  pose proof (Z.div_mod (k - 1) 146097 ltac:(lia)). lia.
Qed.

(** Moving a datetime by [n] days moves its POSIX time by [86400 n]
    seconds. *)
Lemma add_days_posix (local n : Z) (dt dt' : datetime) :
  add_days dt n = Return dt' →
  posix_microseconds local dt'
  = posix_microseconds local dt + n * 86400 * 1000000.
Proof.
  unfold add_days. destruct (_ && _); [|done].
  pose proof (ymd2ord_ord2ymd (toordinal dt + n)) as Hrt.
  destruct (ord2ymd (toordinal dt + n)) as [[y m] d].
  intros [= <-]. unfold posix_microseconds, toordinal in *.
  cbn [year month day hour minute second microsecond utcoffset].
  rewrite Hrt. lia.
Qed.

End Calendar.

(** ** Retention expiry *)
Section Expiry.
Import Datetime HistoryRepository.
Local Open Scope Z_scope.

Lemma calculate_ttl_timestamp_eq (host : Host) (timestamp : string)
    (dt : datetime) (d : Z) :
  Py.int (Py.getenv (environ host) "HISTORY_TTL_DAYS" "365") = Return d →
  fromisoformat (Py.replace "Z" "+00:00" timestamp) = Return dt →
  -999999999 ≤ d ≤ 999999999 →
  0 < toordinal dt + d ≤ MAXORDINAL →
  calculate_ttl_timestamp host timestamp
  = Return (Z.quot (posix_microseconds (local_utcoffset host) dt
                    + d * 86400 * 1000000) 1000000).
Proof.
  intros Hint Hparse Hd Hord. unfold calculate_ttl_timestamp.
  rewrite Hint. cbn [obind]. rewrite Hparse. cbn [obind].
  unfold timedelta_days.
  assert ((-999999999 <=? d) && (d <=? 999999999) = true) as ->.
  { apply andb_true_iff. split; apply Z.leb_le; lia. }
  cbn [obind].
  destruct (add_days dt d) as [dt'|e] eqn:Hadd.
  - cbn [obind]. unfold int_timestamp.
    by rewrite (add_days_posix _ _ _ _ Hadd).
  - exfalso. unfold add_days in Hadd.
    assert ((0 <? toordinal dt + d) && (toordinal dt + d <=? MAXORDINAL) = true) as Hb.
    { apply andb_true_iff. split; [apply Z.ltb_lt|apply Z.leb_le]; lia. }
    rewrite Hb in Hadd. by destruct (ord2ymd _) as [[??]?].
Qed.


(** The expiry [build_create_item] computes from the clock. *)
Lemma calculate_ttl_timestamp_now (host : Host) (d : Z) :
  clock_ok host → ttl_days_ok host d →
  calculate_ttl_timestamp host (isoformat (utcnow host) +:+ "Z")
  = Return (Z.quot (posix_microseconds (local_utcoffset host) (with_utc (utcnow host))
                    + d * 86400 * 1000000) 1000000).
Proof.
  intros [Hok Hnaive] (Hint & Hd & Hord).
  apply calculate_ttl_timestamp_eq; try done.
  by apply fromisoformat_isoformat.
Qed.

End Expiry.

(** ** Items built by the repositories *)
Section Items.
Import HistoryRepository RemediationDataService.

Lemma lookup_set_if_truthy (name : string) (field : option string)
    (item : Item) (k : string) :
  set_if_truthy name field item !! k =
    if decide (name = k) then
      (if Py.truthy field then AV_S <$> field else item !! k)
    else item !! k.
Proof.
  unfold set_if_truthy. destruct field as [[|c s]|]; cbn [Py.truthy Py.str_truthy].
  - by destruct (decide _).
  - rewrite lookup_insert. destruct (decide _); done.
  - by destruct (decide _).
Qed.

Lemma lookup_set_if_truthy_ne (name : string) (field : option string)
    (item : Item) (k : string) :
  name ≠ k → set_if_truthy name field item !! k = item !! k.
Proof. intros. rewrite lookup_set_if_truthy. by destruct (decide _). Qed.

Lemma lookup_set_if_truthy_eq (name : string) (field : option string)
    (item : Item) :
  item !! name = None →
  set_if_truthy name field item !! name =
    if Py.truthy field then AV_S <$> field else None.
Proof.
  intros Hn. rewrite lookup_set_if_truthy. destruct (decide _); [|done].
  rewrite Hn. done.
Qed.

(** The create item always comes out, and [extra_fields] only ever adds
    to (or, on a name clash, overwrites) the item built from the
    request alone. *)
Lemma build_create_item_total (host : Host) (request : RemediationUpdateRequest) :
  host_ok host →
  ∃ p0 : Put.t,
    build_create_item host request None = Return (TPut p0)
    ∧ Put.TableName p0 = Py.getenv (environ host) "HISTORY_TABLE_NAME" ""
    ∧ Put.ConditionExpression p0
      = "attribute_not_exists(findingType) AND attribute_not_exists(#sortKey)"
    ∧ Put.ExpressionAttributeNames p0 = <["#sortKey" := "findingId#executionId"]> ∅
    ∧ ∀ fields,
        build_create_item host request (Some fields)
        = Return (TPut (Put.mk (Put.TableName p0)
                          ((AV_S <$> fields) ∪ Put.Item p0)
                          (Put.ConditionExpression p0)
                          (Put.ExpressionAttributeNames p0))).
Proof.
  intros [Hclock [d Hd]]. unfold build_create_item.
  rewrite (calculate_ttl_timestamp_now host d) by done. cbn [obind].
  eexists. split; [reflexivity|]. cbn. done.
Qed.

(** What the item built from the request alone holds. *)
Lemma build_create_item_attributes (host : Host)
    (request : RemediationUpdateRequest) (p0 : Put.t) :
  build_create_item host request None = Return (TPut p0) →
  let item := Put.Item p0 in
  let optional (name : string) (field : option string) :=
    item !! name = if Py.truthy field then AV_S <$> field else None in
  item !! "findingType" = Some (AV_S (finding_type request))
  ∧ item !! "findingId" = Some (AV_S (finding_id request))
  ∧ item !! "findingId#executionId"
    = Some (AV_S (finding_id request +:+ "#" +:+ execution_id request))
  ∧ item !! "executionId" = Some (AV_S (execution_id request))
  ∧ item !! "remediationStatus" = Some (AV_S (remediation_status request))
  ∧ item !! "lastUpdatedTime"
    = Some (AV_S (Datetime.isoformat (utcnow host) +:+ "Z"))
  ∧ item !! "lastUpdatedBy"
    = Some (AV_S (Py.or_else (lastUpdatedBy request) "Automated"))
  ∧ (∃ ttl, item !! "expireAt" = Some (AV_N (Py.str_of_int ttl)))
  ∧ optional "accountId" (account_id request)
  ∧ optional "resourceId" (resource_id request)
  ∧ optional "resourceType" (resource_type request)
  ∧ optional "severity" (severity request)
  ∧ optional "region" (region request)
  ∧ optional "error" (error request)
  ∧ item !! "resourceTypeNormalized" = None.
Proof.
  unfold build_create_item.
  destruct (calculate_ttl_timestamp _ _) as [ttl|]; [|done].
  cbn [obind]. intros [= <-]. cbv zeta. cbn [Put.Item].
  repeat split;
    try (eexists);
    repeat first
      [ rewrite lookup_set_if_truthy_ne by done
      | rewrite lookup_set_if_truthy_eq
          by (repeat rewrite lookup_set_if_truthy_ne by done; reflexivity) ];
    reflexivity.
Qed.

End Items.

(** ** What the enrichment read can carry over *)
Section Harvest.
Import FindingsRepository HistoryRepository RemediationDataService.

Lemma extract_fields_keys (fields : list string) (item : Item) :
  ∀ acc data k,
    extract_fields fields item acc = Return data →
    is_Some (data !! k) → k ∈ fields ∨ is_Some (acc !! k).
Proof.
  induction fields as [|f fields IH]; intros acc data k Hx Hk; cbn in Hx.
  - injection Hx as <-. by right.
  - destruct (item !! f) as [[v| | |]|]; try done.
    + destruct (IH _ _ _ Hx Hk) as [Hin|Hin]; [left; by constructor|].
      rewrite lookup_insert in Hin. destruct (decide (f = k)) as [->|].
      * left. constructor.
      * by right.
    + destruct (IH _ _ _ Hx Hk) as [Hin|Hin]; [left; by constructor|by right].
Qed.

Lemma extract_partial_finding_data_keys (item : Item) (data : gmap string string)
    (k : string) :
  extract_partial_finding_data item = Return data →
  is_Some (data !! k) → k ∈ field_mappings.
Proof.
  intros Hx Hk. destruct (extract_fields_keys _ _ _ _ _ Hx Hk) as [|Hin]; [done|].
  rewrite lookup_empty in Hin. by destruct Hin.
Qed.

(** Of the harvested fields, only [resourceTypeNormalized] survives the
    filter of [create_history_with_finding_update]. *)
Lemma extra_fields_of_keys (fd : option (gmap string string))
    (fields : gmap string string) (k : string) :
  harvested fd → extra_fields_of fd = Some fields →
  is_Some (fields !! k) → k = "resourceTypeNormalized".
Proof.
  intros Hh Hx [v Hk]. unfold extra_fields_of in Hx.
  destruct fd as [data|]; [|done]. case_bool_decide; [done|].
  injection Hx as <-. apply map_lookup_filter_Some in Hk as [Hk Hnot].
  cbn in Hnot. pose proof (Hh data k eq_refl (mk_is_Some _ _ Hk)) as Hin.
  unfold field_mappings in Hin. unfold named_fields in Hnot.
  rewrite !elem_of_cons, elem_of_nil in Hin.
  rewrite !not_elem_of_cons in Hnot.
  destruct Hnot as (?&?&?&?&?&?&_).
  destruct Hin as [|[|[|[|[|[|[|[]]]]]]]]; done.
Qed.

(** The request's own attributes survive whatever is carried over. *)
Lemma carried_over_fields_keep_request (host : Host)
    (request : RemediationUpdateRequest) (fd : option (gmap string string))
    (p0 : Put.t) :
  host_ok host → harvested fd →
  build_create_item host request None = Return (TPut p0) →
  ∃ p, build_create_item host request (extra_fields_of fd) = Return (TPut p)
       ∧ Put.TableName p = Put.TableName p0
       ∧ Put.ConditionExpression p = Put.ConditionExpression p0
       ∧ Put.ExpressionAttributeNames p = Put.ExpressionAttributeNames p0
       ∧ (∀ k, k ≠ "resourceTypeNormalized" → Put.Item p !! k = Put.Item p0 !! k)
       ∧ (∀ k v, Put.Item p0 !! k = Some v → Put.Item p !! k = Some v).
Proof.
  intros Hhost Hh Hp0.
  destruct (build_create_item_total host request Hhost)
    as (p0' & Hp0' & _ & _ & _ & Hextra).
  rewrite Hp0 in Hp0'. injection Hp0' as <-.
  pose proof (build_create_item_attributes host request p0 Hp0) as Hattrs.
  cbv zeta in Hattrs. destruct Hattrs as (_&_&_&_&_&_&_&_&_&_&_&_&_&_&Hrtn).
  destruct (extra_fields_of fd) as [fields|] eqn:Hx.
  - eexists. split; [apply Hextra|]. cbn [Put.TableName Put.ConditionExpression
      Put.ExpressionAttributeNames Put.Item].
    assert (∀ k, k ≠ "resourceTypeNormalized" →
                 ((AV_S <$> fields) ∪ Put.Item p0) !! k = Put.Item p0 !! k) as Hne.
    { intros k Hk. rewrite lookup_union_r; [done|].
      rewrite lookup_fmap. destruct (fields !! k) as [v|] eqn:Hf; [|done].
      destruct Hk. by eapply extra_fields_of_keys. }
    repeat split; [done|].
    intros k v Hk. destruct (decide (k = "resourceTypeNormalized")) as [->|].
    + congruence.
    + by rewrite Hne.
  - exists p0. repeat split; done.
Qed.

End Harvest.

(** ** Running the coordinator *)

Ltac unfold_M :=
  unfold bind, ret, raise, lift, log, emit, try_except_ClientError, try_except,
    call_transact_write_items, call_get_item, call_update_item, call in *.

Section Runs.
Import FindingsRepository HistoryRepository RemediationDataService.
Context {St : Type} (host : Host) (dynamodb : DynamoDBClient St).

Lemma validate_false (r : RemediationUpdateRequest) (w : World St) :
  missing_required r →
  validate r w =
    (Return false,
     mkWorld (store w) (trace w ++ [Log ERROR "Missing required parameters"])).
Proof.
  intros Hm. unfold validate.
  assert (negb (Py.str_truthy (finding_id r))
          || negb (Py.str_truthy (execution_id r))
          || negb (Py.str_truthy (finding_type r)) = true) as ->; [|done].
  destruct Hm as [Hm | [Hm | Hm]]; rewrite Hm; simpl; rewrite ?orb_true_r; done.
Qed.

Lemma validate_true (r : RemediationUpdateRequest) (w : World St) :
  ¬ missing_required r → validate r w = (Return true, w).
Proof.
  intros Hm. unfold validate, missing_required in *.
  destruct (finding_id r), (execution_id r), (finding_type r); simpl;
    tauto || reflexivity.
Qed.

(** The enrichment read of Tier 2, with its two layers of
    exception handling: it always returns, having made exactly one
    [get_item] call. *)
Lemma get_run (request : RemediationUpdateRequest) (w : World St) :
  let '(r, s1) := get_item dynamodb (finding_lookup host request) (store w) in
  get host dynamodb (finding_type request) (finding_id request) w =
    match r with
    | Return item =>
        (Return item,
         mkWorld s1 (trace w ++ [CallGetItem (finding_lookup host request)]))
    | Raise _ =>
        (Return None,
         mkWorld s1 (trace w ++ [CallGetItem (finding_lookup host request);
                                 Log WARNING "Error retrieving finding data"]))
    end.
Proof.
  unfold get. unfold_M. fold (finding_lookup host request).
  destruct (get_item dynamodb (finding_lookup host request) (store w)) as [r s1].
  destruct r as [[item|]|e]; cbn [store trace]; try done.
  by rewrite <- app_assoc.
Qed.

Lemma enrichment_run (request : RemediationUpdateRequest) (w : World St) :
  ∃ fd logs,
    enrichment host dynamodb request w =
      (Return fd,
       mkWorld (get_item dynamodb (finding_lookup host request) (store w)).2
         (trace w ++ CallGetItem (finding_lookup host request) :: logs))
    ∧ harvested fd
    ∧ store_calls logs = []
    ∧ (∀ e, (get_item dynamodb (finding_lookup host request) (store w)).1 = Raise e →
            fd = None ∧ logs = [Log WARNING "Error retrieving finding data"])
    ∧ ((get_item dynamodb (finding_lookup host request) (store w)).1 = Return None →
       fd = None ∧ logs = []).
Proof.
  unfold enrichment, get_finding_data.
  pose proof (get_run request w) as Hget.
  destruct (get_item dynamodb (finding_lookup host request) (store w)) as [r s1].
  unfold try_except at 1. unfold bind at 1. rewrite Hget. cbn [snd fst].
  destruct r as [[item|]|e].
  - case_bool_decide.
    + exists None, []. unfold_M.
      repeat split; try done; try (by intros ?? [=]); by intros ? [=].
    + unfold bind, lift, ret.
      destruct (extract_partial_finding_data item) as [data|e] eqn:Hx.
      * exists (Some data), [].
        repeat split; try done; try (by intros ? [=]); try (by intros [=]).
        intros ?? [= <-]. by eapply extract_partial_finding_data_keys.
      * eexists None, [_]. unfold log, emit. cbn [store trace].
        rewrite <- app_assoc.
        repeat split; try done; try (by intros ?? [=]); try (by intros [=]);
          by intros ? [=].
  - exists None, []. unfold_M.
    repeat split; try done; try (by intros ?? [=]); by intros ? [=].
  - eexists None, [_]. unfold_M.
    repeat split; try done; try (by intros [=]); by intros ?? [=].
Qed.

(** The finding update is an [Update] on the findings table by primary
    key, and carries no condition. *)
Lemma finding_update_shape (request : RemediationUpdateRequest) :
  ∃ u, finding_update host request = TUpdate u
       ∧ Update.TableName u = Py.getenv (environ host) "FINDINGS_TABLE_NAME" ""
       ∧ Update.Key u = <["findingType" := AV_S (finding_type request)]>
                          (<["findingId" := AV_S (finding_id request)]> ∅)
       ∧ Update.ConditionExpression u = None.
Proof.
  unfold finding_update, FindingsRepository.build_update_item.
  destruct (Py.str_truthy (execution_id request)),
    (error request) as [[|c e]|]; eexists; split; try reflexivity; done.
Qed.

Lemma update_finding_only_run (request : RemediationUpdateRequest)
    (u : Update.t) (w : World St) :
  finding_update host request = TUpdate u →
  update_finding_only host dynamodb request w =
    match update_item dynamodb u (store w) with
    | (Return _, s') =>
        (Return tt,
         mkWorld s' (trace w ++
           [CallUpdateItem u;
            Log DEBUG "Successfully updated finding only after history operation failure"]))
    | (Raise e, s') =>
        (Raise e,
         mkWorld s' (trace w ++
           [CallUpdateItem u;
            Log ERROR "Failed to update finding after history operation failure"]))
    end.
Proof.
  intros Hu. unfold update_finding_only, update.
  fold (finding_update host request). rewrite Hu. unfold_M.
  destruct (update_item dynamodb u (store w)) as [[[]|e] s']; cbn [store trace];
    by rewrite <- app_assoc.
Qed.

Lemma create_history_run (request : RemediationUpdateRequest) (w : World St)
    (fd : option (gmap string string)) (w1 : World St) (p : Put.t) :
  enrichment host dynamodb request w = (Return fd, w1) →
  build_create_item host request (extra_fields_of fd) = Return (TPut p) →
  let items := tier2_items host request fd p in
  let sent := mkWorld (transact_write_items dynamodb items (store w1)).2
                (trace w1 ++ [CallTransactWriteItems items]) in
  create_history_with_finding_update host dynamodb request w =
    match (transact_write_items dynamodb items (store w1)).1 with
    | Return _ =>
        (Return tt,
         mkWorld (store sent)
           (trace sent ++
              [Log INFO "Successfully created remediation history via fallback"]))
    | Raise (ClientError response) =>
        if bool_decide (error_code_of response = "TransactionCanceledException")
        then update_finding_only host dynamodb request sent
        else (Raise (ClientError response), sent)
    | Raise e => (Raise e, sent)
    end.
Proof.
  intros Hen Hp. cbv zeta.
  unfold create_history_with_finding_update. fold (enrichment host dynamodb request).
  unfold bind at 1. rewrite Hen.
  unfold transact_create_history_and_update_finding.
  fold (finding_update host request). rewrite Hp.
  unfold tier2_items. unfold_M.
  destruct (transact_write_items dynamodb _ (store w1)) as [[[]|e] s2];
    cbn [store trace fst snd]; [done|].
  destruct e; try done. by case_bool_decide.
Qed.

End Runs.

(** ** Facts about the example inputs *)

Lemma example_host_ok : host_ok Example.host.
Proof.
  split; [split; reflexivity|]. exists 365%Z. split; [reflexivity|].
  split; vm_compute; split; congruence.
Qed.

Lemma example_test_host_ok : host_ok Example.test_host.
Proof.
  split; [split; reflexivity|]. exists 365%Z. split; [reflexivity|].
  split; vm_compute; split; congruence.
Qed.

(** * The claims *)

Section Claims.
Import FindingsRepository HistoryRepository RemediationDataService.

(** C1 (as amended).  When the store rejects the Tier-1 transaction with
    a [ClientError], the coordinator proceeds to Tier 2 (returns [False])
    exactly when the error code is [TransactionCanceledException] and some
    cancellation reason, at any item index, has code
    [ConditionalCheckFailed]; in every other case the same [ClientError] is
    re-raised to the caller. *)
Theorem tier1_rejection_dispatch {St} (host : Host) (dynamodb : DynamoDBClient St)
    (request : RemediationUpdateRequest) (w : World St)
    (response : ErrorResponse) (s' : St) :
  transact_write_items dynamodb (tier1_items host request) (store w)
    = (Raise (ClientError response), s') →
  let r := (try_update_with_existing_history host dynamodb request w).1 in
  (r = Return false ↔
     error_code_of response = "TransactionCanceledException"
     ∧ ∃ i reason, cancellation_reasons_of response !! i = Some reason
                   ∧ Code reason = Some "ConditionalCheckFailed")
  ∧ (r ≠ Return false → r = Raise (ClientError response)).
Proof.
  intros Htx. cbv zeta.
  unfold try_update_with_existing_history, transact_update_finding_and_history.
  unfold_M. cbn [store trace].
  change [FindingsRepository.build_update_item _ _ _ _ _ _; _]
    with (tier1_items host request).
  rewrite Htx. cbn [fst].
  destruct (bool_decide (error_code_of response = "TransactionCanceledException")
            && existsb is_conditional_check_failed (cancellation_reasons_of response))
    eqn:Hd; cbn [fst].
  - split; [|done]. split; [|done]. intros _.
    apply andb_true_iff in Hd as [Hc He]. apply bool_decide_eq_true in Hc.
    split; [done|]. apply existsb_lookup in He as (i & x & Hi & Hx).
    exists i, x. split; [done|]. by apply bool_decide_eq_true in Hx.
  - split; [|done]. split; [done|]. intros (Hc & i & x & Hi & Hx).
    apply andb_false_iff in Hd as [Hd|Hd].
    + by apply bool_decide_eq_false in Hd.
    + assert (existsb is_conditional_check_failed
                (cancellation_reasons_of response) = true); [|congruence].
      apply existsb_lookup. exists i, x. split; [done|].
      by apply bool_decide_eq_true.
Qed.

(** C1, witness: a cancellation whose History item (index 1) failed its
    condition sends the coordinator to Tier 2. *)
Lemma tier1_rejection_dispatch_witness :
  (try_update_with_existing_history Example.host
     (Scripted.client Example.all_cancelled) Example.queued
     Example.empty_world).1 = Return false.
Proof.
  pose proof (tier1_rejection_dispatch Example.host
                (Scripted.client Example.all_cancelled) Example.queued
                Example.empty_world _ tt eq_refl) as [Hiff _].
  apply Hiff. split; [reflexivity|].
  exists 1%nat, (mkErrorDict (Some "ConditionalCheckFailed") None).
  split; reflexivity.
Defined.

(** C1, counterexample to the claim as stated: the only conditional-check
    failure is on the Finding item (index 0), the History item (index 1)
    reports none, and yet the coordinator proceeds to Tier 2 instead of
    raising. *)
Lemma tier1_finding_only_failure_proceeds :
  let response :=
    mkErrorResponse
      (Some (mkErrorDict (Some "TransactionCanceledException") None))
      (Some [mkErrorDict (Some "ConditionalCheckFailed") None;
             mkErrorDict (Some "None") None]) in
  transact_write_items (Scripted.client Example.finding_only_failure)
    (tier1_items Example.host Example.queued) tt
    = (Raise (ClientError response), tt)
  ∧ (Code <$> cancellation_reasons_of response !! 1%nat) = Some (Some "None")
  ∧ (try_update_with_existing_history Example.host
       (Scripted.client Example.finding_only_failure) Example.queued
       Example.empty_world).1 = Return false
  ∧ (try_update_with_existing_history Example.host
       (Scripted.client Example.finding_only_failure) Example.queued
       Example.empty_world).1 ≠ Raise (ClientError response).
Proof. cbv zeta. repeat split; try reflexivity. discriminate. Qed.


(** C5.  A request with an empty [finding_id], [execution_id] or
    [finding_type] fails [validate], and the coordinator then returns
    normally having logged one error and made no store call; a request
    with all three non-empty passes [validate]. *)
Theorem invalid_request_is_silent_noop {St} (host : Host)
    (dynamodb : DynamoDBClient St) (request : RemediationUpdateRequest)
    (w : World St) :
  (missing_required request →
     let w' := mkWorld (store w)
                 (trace w ++ [Log ERROR "Missing required parameters"]) in
     validate request w = (Return false, w')
     ∧ update_remediation_status_and_history host dynamodb request w
       = (Return tt, w')
     ∧ store_calls (trace w') = store_calls (trace w))
  ∧ (¬ missing_required request → validate request w = (Return true, w)).
Proof.
  split.
  - intros Hm. cbv zeta. split; [by apply validate_false|]. split.
    + unfold update_remediation_status_and_history, bind.
      rewrite validate_false by done. reflexivity.
    + cbn [trace]. unfold store_calls. rewrite List.filter_app. cbn.
      by rewrite app_nil_r.
  - apply validate_true.
Qed.

(** C5, witness: the request of the repository's own test (empty
    [finding_id]) against a store in which every call would fail. *)
Lemma invalid_request_is_silent_noop_witness :
  update_remediation_status_and_history Example.host
    (Scripted.client Example.all_cancelled)
    (new_request "" "exec-123" "SUCCESS" "EC2.1") Example.empty_world
  = (Return tt, mkWorld tt [Log ERROR "Missing required parameters"]).
Proof.
  pose proof (invalid_request_is_silent_noop Example.host
                (Scripted.client Example.all_cancelled)
                (new_request "" "exec-123" "SUCCESS" "EC2.1")
                Example.empty_world) as [Hinvalid _].
  apply Hinvalid. left. reflexivity.
Defined.

End Claims.

Section ClaimsTier2.
Import FindingsRepository HistoryRepository RemediationDataService.

(** The Tier-2 write is always issued, with the create item as its last
    member. *)
Lemma tier2_write_issued {St} (host : Host) (dynamodb : DynamoDBClient St)
    (request : RemediationUpdateRequest) (w : World St) :
  host_ok host →
  ∃ fd w1 p0 p,
    enrichment host dynamodb request w = (Return fd, w1)
    ∧ harvested fd
    ∧ build_create_item host request None = Return (TPut p0)
    ∧ build_create_item host request (extra_fields_of fd) = Return (TPut p)
    ∧ CallTransactWriteItems (tier2_items host request fd p)
      ∈ trace (create_history_with_finding_update host dynamodb request w).2.
Proof.
  intros Hhost.
  destruct (enrichment_run host dynamodb request w) as (fd & logs & Hen & Hh & _).
  destruct (build_create_item_total host request Hhost) as (p0 & Hp0 & _).
  destruct (carried_over_fields_keep_request host request fd p0 Hhost Hh Hp0)
    as (p & Hp & _).
  eexists fd, _, p0, p. split; [exact Hen|]. repeat split; try done.
  rewrite (create_history_run host dynamodb request w fd _ p Hen Hp).
  cbn [store trace].
  destruct (transact_write_items dynamodb _ _) as [[[]|e] s2]; cbn [fst snd trace].
  - rewrite !elem_of_app. left. right. constructor.
  - assert (∀ (r : outcome unit) tr, CallTransactWriteItems
              (tier2_items host request fd p) ∈ trace (r, mkWorld s2
                ((trace w ++ CallGetItem (finding_lookup host request) :: logs)
                 ++ [CallTransactWriteItems (tier2_items host request fd p)] ++ tr)).2)
      as Hin.
    { intros r tr. cbn [snd trace]. rewrite !elem_of_app. right. left. constructor. }
    destruct e as [response| | | |]; try apply (Hin (Raise _) []).
    case_bool_decide; [|apply (Hin (Raise _) [])].
    destruct (finding_update_shape host request) as (u & Hu & _).
    rewrite (update_finding_only_run host dynamodb request u _ Hu).
    cbn [store trace]. destruct (update_item dynamodb u s2) as [[[]|e] s3];
      cbn [snd trace]; rewrite <- app_assoc; apply (Hin (Return tt) [_; _]).
Qed.

(** C6.  In the item Tier 2 sends, every attribute built from the
    request keeps the request's value, whatever the Finding record read
    during enrichment holds under the same name: the carried-over fields
    never replace a request-supplied one. *)
Theorem request_fields_take_precedence {St} (host : Host)
    (dynamodb : DynamoDBClient St) (request : RemediationUpdateRequest)
    (w : World St) :
  host_ok host →
  ∃ fd w1 p0 p,
    enrichment host dynamodb request w = (Return fd, w1)
    ∧ build_create_item host request None = Return (TPut p0)
    ∧ build_create_item host request (extra_fields_of fd) = Return (TPut p)
    ∧ CallTransactWriteItems (tier2_items host request fd p)
      ∈ trace (create_history_with_finding_update host dynamodb request w).2
    ∧ ∀ k v, Put.Item p0 !! k = Some v → Put.Item p !! k = Some v.
Proof.
  intros Hhost.
  destruct (tier2_write_issued host dynamodb request w Hhost)
    as (fd & w1 & p0 & p & Hen & Hh & Hp0 & Hp & Hin).
  exists fd, w1, p0, p. repeat split; try done.
  destruct (carried_over_fields_keep_request host request fd p0 Hhost Hh Hp0)
    as (p' & Hp' & _ & _ & _ & _ & Hkeep).
  rewrite Hp in Hp'. injection Hp' as <-. done.
Qed.

(** C6, witness: the Finding record says account 111111111111 and status
    NOT_STARTED, the request says account 222222222222 and status FAILED;
    the history item carries the request's values. *)
Lemma request_fields_take_precedence_witness :
  ∃ fd w1 p0 p,
    enrichment Example.host (Scripted.client Example.finding_found)
      Example.failed Example.empty_world = (Return fd, w1)
    ∧ build_create_item Example.host Example.failed None = Return (TPut p0)
    ∧ build_create_item Example.host Example.failed (extra_fields_of fd)
      = Return (TPut p)
    ∧ CallTransactWriteItems (tier2_items Example.host Example.failed fd p)
      ∈ trace (create_history_with_finding_update Example.host
                 (Scripted.client Example.finding_found) Example.failed
                 Example.empty_world).2
    ∧ ∀ k v, Put.Item p0 !! k = Some v → Put.Item p !! k = Some v.
Proof.
  exact (request_fields_take_precedence Example.host
           (Scripted.client Example.finding_found) Example.failed
           Example.empty_world example_host_ok).
Defined.

(** C7.  When the Finding lookup raises, [get] logs a warning and returns
    [None]; when the Finding is absent it returns [None] as well.  Either
    way the coordinator sends the Tier-2 transaction holding only the
    create item built from the request's own fields, and what happens next
    is decided by that write alone: success if it succeeds, Tier 3 if it is
    cancelled, its error otherwise.  The read's exception is never
    raised. *)
Theorem enrichment_read_failure_is_absorbed {St} (host : Host)
    (dynamodb : DynamoDBClient St) (request : RemediationUpdateRequest)
    (w : World St) :
  host_ok host →
  let r := (get_item dynamodb (finding_lookup host request) (store w)).1 in
  let s1 := (get_item dynamodb (finding_lookup host request) (store w)).2 in
  (r = Return None ∨ ∃ e, r = Raise e) →
  let warned :=
    match r with
    | Raise _ => [Log WARNING "Error retrieving finding data"]
    | Return _ => []
    end in
  let w1 := mkWorld s1
              (trace w ++ CallGetItem (finding_lookup host request) :: warned) in
  get host dynamodb (finding_type request) (finding_id request) w
    = (Return None, w1)
  ∧ ∃ p, build_create_item host request None = Return (TPut p)
      ∧ let sent := mkWorld (transact_write_items dynamodb [TPut p] s1).2
                      (trace w1 ++ [CallTransactWriteItems [TPut p]]) in
        create_history_with_finding_update host dynamodb request w =
          match (transact_write_items dynamodb [TPut p] s1).1 with
          | Return _ =>
              (Return tt,
               mkWorld (store sent)
                 (trace sent ++
                    [Log INFO "Successfully created remediation history via fallback"]))
          | Raise (ClientError response) =>
              if bool_decide
                   (error_code_of response = "TransactionCanceledException")
              then update_finding_only host dynamodb request sent
              else (Raise (ClientError response), sent)
          | Raise e' => (Raise e', sent)
          end.
Proof.
  intros Hhost. cbv zeta. intros Hget.
  destruct (enrichment_run host dynamodb request w)
    as (fd & logs & Hen & _ & _ & Hfail & Habsent).
  pose proof (get_run host dynamodb request w) as Hrun.
  destruct (build_create_item_total host request Hhost) as (p & Hp & _).
  destruct (get_item dynamodb (finding_lookup host request) (store w))
    as [r s1]. cbn [fst snd] in *.
  destruct Hget as [-> | [e ->]].
  - destruct (Habsent eq_refl) as [-> ->]. split; [done|].
    exists p. split; [done|].
    apply (create_history_run host dynamodb request w None _ p Hen Hp).
  - destruct (Hfail e eq_refl) as [-> ->]. split; [done|].
    exists p. split; [done|].
    apply (create_history_run host dynamodb request w None _ p Hen Hp).
Qed.

(** C7, witness: the read times out, the write goes through, the
    operation succeeds. *)
Lemma enrichment_read_failure_is_absorbed_witness :
  ∃ p, build_create_item Example.host Example.queued None = Return (TPut p)
       ∧ create_history_with_finding_update Example.host
           (Scripted.client Example.read_fails) Example.queued
           Example.empty_world
         = (Return tt,
            mkWorld tt
              [CallGetItem (finding_lookup Example.host Example.queued);
               Log WARNING "Error retrieving finding data";
               CallTransactWriteItems [TPut p];
               Log INFO "Successfully created remediation history via fallback"]).
Proof.
  destruct (enrichment_read_failure_is_absorbed Example.host
              (Scripted.client Example.read_fails) Example.queued
              Example.empty_world example_host_ok
              (or_intror (ex_intro _ (OtherException "read timed out") eq_refl)))
    as (_ & p & Hp & Hrun).
  exists p. split; [exact Hp|]. exact Hrun.
Defined.

(** C8.  When the store cancels the Tier-2 transaction, the coordinator
    makes exactly one more call: a plain [update_item] on the findings
    table, keyed by the finding, with no condition.  If it succeeds the
    operation succeeds; if it raises, the error is logged and the same
    exception is raised to the caller, with no further store call. *)
Theorem tier2_cancellation_falls_to_finding_only {St} (host : Host)
    (dynamodb : DynamoDBClient St) (request : RemediationUpdateRequest)
    (w : World St) (fd : option (gmap string string)) (w1 : World St)
    (p : Put.t) (response : ErrorResponse) :
  enrichment host dynamodb request w = (Return fd, w1) →
  build_create_item host request (extra_fields_of fd) = Return (TPut p) →
  (transact_write_items dynamodb (tier2_items host request fd p) (store w1)).1
    = Raise (ClientError response) →
  error_code_of response = "TransactionCanceledException" →
  ∃ u,
    finding_update host request = TUpdate u
    ∧ Update.TableName u = Py.getenv (environ host) "FINDINGS_TABLE_NAME" ""
    ∧ Update.Key u = <["findingType" := AV_S (finding_type request)]>
                       (<["findingId" := AV_S (finding_id request)]> ∅)
    ∧ Update.ConditionExpression u = None
    ∧ let s2 := (transact_write_items dynamodb (tier2_items host request fd p)
                   (store w1)).2 in
      let tr :=
        (trace w1 ++ [CallTransactWriteItems (tier2_items host request fd p)])%list in
      create_history_with_finding_update host dynamodb request w =
        match update_item dynamodb u s2 with
        | (Return _, s3) =>
            (Return tt,
             mkWorld s3 (tr ++
               [CallUpdateItem u;
                Log DEBUG "Successfully updated finding only after history operation failure"]))
        | (Raise e, s3) =>
            (Raise e,
             mkWorld s3 (tr ++
               [CallUpdateItem u;
                Log ERROR "Failed to update finding after history operation failure"]))
        end.
Proof.
  intros Hen Hp Htx Hcode.
  destruct (finding_update_shape host request) as (u & Hu & Htable & Hkey & Hcond).
  exists u. repeat split; try done. cbv zeta.
  rewrite (create_history_run host dynamodb request w fd w1 p Hen Hp).
  rewrite Htx. rewrite bool_decide_eq_true_2 by done.
  by rewrite (update_finding_only_run host dynamodb request u _ Hu).
Qed.

(** C8, witness: both transactions are cancelled and the plain update is
    throttled; the throttling error reaches the caller after one
    [update_item] call. *)
Lemma tier2_cancellation_falls_to_finding_only_witness :
  (create_history_with_finding_update Example.host
     (Scripted.client Example.all_cancelled) Example.queued
     Example.empty_world).1 = Raise (OtherException "throttled")
  ∧ length (store_calls
              (trace (create_history_with_finding_update Example.host
                        (Scripted.client Example.all_cancelled) Example.queued
                        Example.empty_world).2)) = 3%nat.
Proof.
  destruct (build_create_item_total Example.host Example.queued example_host_ok)
    as (p0 & _ & _ & _ & _ & Hextra).
  set (fd := Some (<["accountId" := "111111111111"]>
                     (<["resourceTypeNormalized" := "EC2Instance"]> ∅))
             : option (gmap string string)).
  destruct (tier2_cancellation_falls_to_finding_only Example.host
              (Scripted.client Example.all_cancelled) Example.queued
              Example.empty_world fd
              (mkWorld tt [CallGetItem (finding_lookup Example.host Example.queued)])
              _ _ eq_refl (Hextra _) eq_refl eq_refl)
    as (u & Hu & _ & _ & _ & Hrun).
  cbv zeta in Hrun. rewrite Hrun. split; reflexivity.
Defined.

End ClaimsTier2.

(** ** What an update leaves alone *)
Section StoreFrame.

Lemma apply_actions_lookup_ne (actions : list (string * AttributeValue))
    (k : string) :
  ∀ row : Item,
    Forall (λ kv, kv.1 ≠ k) actions →
    Store.apply_actions actions row !! k = row !! k.
Proof.
  unfold Store.apply_actions.
  induction actions as [|[k' v] actions IH]; intros row Hall; [done|].
  apply Forall_cons in Hall as [Hk Hall]. cbn [foldl].
  rewrite IH by done. by rewrite lookup_insert_ne.
Qed.

(** An update the store accepts leaves every attribute its actions do not
    name as it was stored (absent, when the row did not exist and the
    attribute is not part of the key). *)
Lemma prepare_update_frame (s : Store.t) (u : Update.t) (wr : Store.write)
    (actions : list (string * AttributeValue)) (attr : string) :
  Store.parse_update (Store.names_of (Update.ExpressionAttributeNames u))
    (Update.ExpressionAttributeValues u) (Update.UpdateExpression u)
  = Some actions →
  attr ∉ actions.*1 →
  Update.Key u !! attr = None →
  Store.prepare s (TUpdate u) = Return wr →
  Store.w_row wr !! attr
  = Store.row s (Store.w_table wr) (Store.w_key wr) ≫= (λ it : Item, it !! attr).
Proof.
  intros Hparse Hnot Hkey. cbn [Store.prepare].
  unfold Store.prepare_update, Store.find_table.
  destruct (s !! Update.TableName u) as [tbl|] eqn:Hs; [|done]. cbn [obind].
  destruct (Store.key_of tbl (Update.Key u)) as [k|]; [|done]. cbn [obind].
  match goal with |- obind ?c _ = _ → _ => destruct c as [ok|]; [|done] end.
  cbn [obind]. rewrite Hparse. cbn [Store.or_invalid obind].
  destruct (existsb _ actions); [done|].
  intros [= <-]. cbn [Store.w_row Store.w_table Store.w_key].
  unfold Store.row. rewrite Hs. cbn [mbind option_bind].
  rewrite apply_actions_lookup_ne.
  - by destruct (Store.rows tbl !! k).
  - apply Forall_forall. intros kv Hin Heq. apply Hnot. rewrite <- Heq.
    by apply list_elem_of_fmap_2.
Qed.

End StoreFrame.

Section ClaimsItems.
Import FindingsRepository HistoryRepository RemediationDataService.
Local Open Scope Z_scope.




Local Close Scope Z_scope.

(** The two update descriptors for an empty or absent [error], with the
    actions the store reads in them. *)
Lemma empty_error_descriptors (host : Host)
    (finding_type finding_id remediation_status execution_id : string)
    (error : option string) :
  Py.truthy error = false →
  ∃ uf uh af ah,
    FindingsRepository.build_update_item host finding_type finding_id
      remediation_status execution_id error = TUpdate uf
    ∧ HistoryRepository.build_update_item host finding_id execution_id
        remediation_status finding_type error = TUpdate uh
    ∧ Update.ExpressionAttributeValues uf !! ":err" = None
    ∧ Update.ExpressionAttributeValues uh !! ":err" = None
    ∧ Store.parse_update (Store.names_of (Update.ExpressionAttributeNames uf))
        (Update.ExpressionAttributeValues uf) (Update.UpdateExpression uf)
      = Some af
    ∧ Store.parse_update (Store.names_of (Update.ExpressionAttributeNames uh))
        (Update.ExpressionAttributeValues uh) (Update.UpdateExpression uh)
      = Some ah
    ∧ Update.Key uf !! "error" = None
    ∧ Update.Key uh !! "error" = None
    ∧ Update.Key uf !! "executionId" = None
    ∧ ("error" ∉ af.*1) ∧ ("error" ∉ ah.*1)
    ∧ (execution_id = "" → "executionId" ∉ af.*1).
Proof.
  intros Herr.
  assert (error = None ∨ error = Some "") as Hcases.
  { destruct error as [[|c s]|]; auto. discriminate. }
  unfold FindingsRepository.build_update_item, HistoryRepository.build_update_item.
  destruct execution_id as [|c eid]; cbn [Py.str_truthy];
    destruct Hcases as [-> | ->];
    do 4 eexists; do 9 (split; [reflexivity|]);
    cbn [fmap list_fmap fst];
    rewrite ?not_elem_of_cons;
    repeat split; try done; apply not_elem_of_nil.
Qed.

(** C9.  With an empty or absent [error], neither update descriptor
    mentions the error attribute: [:err] is not among the values and no
    action of the update expression assigns [error]; so applying the
    actions to any stored row leaves its [error] as it was, and whenever the
    store accepts either update, the row it writes holds the [error] that
    was stored before.  Likewise, with an empty [execution_id] the Finding
    update assigns no [executionId] and leaves the stored one. *)
Theorem empty_error_is_not_written (host : Host)
    (finding_type finding_id remediation_status execution_id : string)
    (error : option string) :
  Py.truthy error = false →
  ∃ uf uh af ah,
    FindingsRepository.build_update_item host finding_type finding_id
      remediation_status execution_id error = TUpdate uf
    ∧ HistoryRepository.build_update_item host finding_id execution_id
        remediation_status finding_type error = TUpdate uh
    ∧ Update.ExpressionAttributeValues uf !! ":err" = None
    ∧ Update.ExpressionAttributeValues uh !! ":err" = None
    ∧ Store.parse_update (Store.names_of (Update.ExpressionAttributeNames uf))
        (Update.ExpressionAttributeValues uf) (Update.UpdateExpression uf)
      = Some af
    ∧ Store.parse_update (Store.names_of (Update.ExpressionAttributeNames uh))
        (Update.ExpressionAttributeValues uh) (Update.UpdateExpression uh)
      = Some ah
    ∧ ("error" ∉ af.*1) ∧ ("error" ∉ ah.*1)
    ∧ (∀ row : Item, Store.apply_actions af row !! "error" = row !! "error")
    ∧ (∀ row : Item, Store.apply_actions ah row !! "error" = row !! "error")
    ∧ (∀ s wr,
         Store.prepare s (TUpdate uf) = Return wr →
         Store.w_row wr !! "error"
         = Store.row s (Store.w_table wr) (Store.w_key wr)
             ≫= (λ it : Item, it !! "error"))
    ∧ (∀ s wr,
         Store.prepare s (TUpdate uh) = Return wr →
         Store.w_row wr !! "error"
         = Store.row s (Store.w_table wr) (Store.w_key wr)
             ≫= (λ it : Item, it !! "error"))
    ∧ (execution_id = "" →
       ("executionId" ∉ af.*1)
       ∧ (∀ row : Item,
            Store.apply_actions af row !! "executionId" = row !! "executionId")
       ∧ ∀ s wr,
           Store.prepare s (TUpdate uf) = Return wr →
           Store.w_row wr !! "executionId"
           = Store.row s (Store.w_table wr) (Store.w_key wr)
               ≫= (λ it : Item, it !! "executionId")).
Proof.
  intros Herr.
  destruct (empty_error_descriptors host finding_type finding_id
              remediation_status execution_id error Herr)
    as (uf & uh & af & ah & Huf & Huh & Hvf & Hvh & Haf & Hah
        & Hkf & Hkh & Hke & Hnf & Hnh & Hne).
  assert (∀ (actions : list (string * AttributeValue)) (attr : string),
            attr ∉ actions.*1 → Forall (λ kv, kv.1 ≠ attr) actions) as Hall.
  { intros actions attr Hnot. apply Forall_forall. intros kv Hin Heq.
    apply Hnot. rewrite <- Heq. by apply list_elem_of_fmap_2. }
  exists uf, uh, af, ah. do 8 (split; [done|]).
  split; [intros row; by apply apply_actions_lookup_ne, Hall|].
  split; [intros row; by apply apply_actions_lookup_ne, Hall|].
  split; [intros s wr; by apply (prepare_update_frame s uf wr af)|].
  split; [intros s wr; by apply (prepare_update_frame s uh wr ah)|].
  intros Heid. specialize (Hne Heid). split; [done|].
  split; [intros row; by apply apply_actions_lookup_ne, Hall|].
  intros s wr. by apply (prepare_update_frame s uf wr af).
Qed.

(** C9, witness: a [SUCCESS] update without an error, applied to a row
    that still holds the error of an earlier failure. *)
Lemma empty_error_is_not_written_witness :
  ∃ af,
    (∀ row : Item, Store.apply_actions af row !! "error" = row !! "error")
    ∧ Store.apply_actions af
        (<["error" := AV_S "Lambda function timeout"]>
           (<["remediationStatus" := AV_S "FAILED"]> ∅))
      = <["error" := AV_S "Lambda function timeout"]>
          (<["executionId" := AV_S "e1"]>
             (<["remediationStatus" := AV_S "SUCCESS"]> ∅)).
Proof.
  destruct (empty_error_is_not_written Example.host "EC2.1" "f1" "SUCCESS" "e1"
              None eq_refl)
    as (uf & uh & af & ah & Huf & _ & _ & _ & Haf & _ & _ & _ & Hframe & _).
  exists af. split; [exact Hframe|].
  injection Huf as <-. injection Haf as <-. reflexivity.
Defined.

End ClaimsItems.

Section ClaimsCreateItem.
Import FindingsRepository HistoryRepository RemediationDataService.

(** C10.  The create item Tier 2 sends always holds the key attributes
    [findingType] and [findingId#executionId], and [findingId],
    [executionId], [remediationStatus], [lastUpdatedTime],
    [lastUpdatedBy] and [expireAt]; each of [accountId], [resourceId],
    [resourceType], [severity], [region] and [error] is present exactly
    when the request's field is non-empty, and then holds it;
    [lastUpdatedBy] is ["Automated"] when the request's is empty or
    absent. *)
Theorem tier2_history_item_attributes {St} (host : Host)
    (dynamodb : DynamoDBClient St) (request : RemediationUpdateRequest)
    (w : World St) :
  host_ok host →
  ∃ fd w1 p,
    enrichment host dynamodb request w = (Return fd, w1)
    ∧ build_create_item host request (extra_fields_of fd) = Return (TPut p)
    ∧ CallTransactWriteItems (tier2_items host request fd p)
      ∈ trace (create_history_with_finding_update host dynamodb request w).2
    ∧ let item := Put.Item p in
      let optional (name : string) (field : option string) :=
        (is_Some (item !! name) ↔ Py.truthy field = true)
        ∧ (Py.truthy field = true → item !! name = AV_S <$> field) in
      item !! "findingType" = Some (AV_S (finding_type request))
      ∧ item !! "findingId#executionId"
        = Some (AV_S (finding_id request +:+ "#" +:+ execution_id request))
      ∧ item !! "findingId" = Some (AV_S (finding_id request))
      ∧ item !! "executionId" = Some (AV_S (execution_id request))
      ∧ item !! "remediationStatus" = Some (AV_S (remediation_status request))
      ∧ item !! "lastUpdatedTime"
        = Some (AV_S (Datetime.isoformat (utcnow host) +:+ "Z"))
      ∧ is_Some (item !! "lastUpdatedBy")
      ∧ (∃ ttl, item !! "expireAt" = Some (AV_N (Py.str_of_int ttl)))
      ∧ optional "accountId" (account_id request)
      ∧ optional "resourceId" (resource_id request)
      ∧ optional "resourceType" (resource_type request)
      ∧ optional "severity" (severity request)
      ∧ optional "region" (region request)
      ∧ optional "error" (error request)
      ∧ (Py.truthy (lastUpdatedBy request) = false →
         item !! "lastUpdatedBy" = Some (AV_S "Automated"))
      ∧ (Py.truthy (lastUpdatedBy request) = true →
         item !! "lastUpdatedBy" = AV_S <$> lastUpdatedBy request).
Proof.
  intros Hhost.
  destruct (tier2_write_issued host dynamodb request w Hhost)
    as (fd & w1 & p0 & p & Hen & Hh & Hp0 & Hp & Hin).
  exists fd, w1, p. repeat (split; [done|]).
  destruct (carried_over_fields_keep_request host request fd p0 Hhost Hh Hp0)
    as (p' & Hp' & _ & _ & _ & Hsame & _).
  rewrite Hp in Hp'. injection Hp' as <-.
  pose proof (build_create_item_attributes host request p0 Hp0) as Hattrs.
  cbv zeta in Hattrs |- *.
  destruct Hattrs as (Hft & Hfid & Hsk & Heid & Hrs & Htime & Hby & Httl
                      & Hacc & Hrid & Hrty & Hsev & Hreg & Herr & _).
  assert (∀ name field,
            Put.Item p0 !! name = (if Py.truthy field then AV_S <$> field else None) →
            (is_Some (Put.Item p0 !! name) ↔ Py.truthy field = true)
            ∧ (Py.truthy field = true → Put.Item p0 !! name = AV_S <$> field))
    as Hopt.
  { intros name field Hl. rewrite Hl.
    destruct field as [[|c s]|]; cbn; split; try done;
      split; try done; by intros []. }
  rewrite !Hsame by done.
  repeat (split; [first [done | by rewrite Hby | by apply Hopt]|]).
  rewrite Hby. split; intros Hb; destruct (lastUpdatedBy request) as [[|c s]|]; done.
Qed.

(** C10, witness: a request with an account id and an error, no
    resource, and a Finding record that has other metadata. *)
Lemma tier2_history_item_attributes_witness :
  ∃ p, CallTransactWriteItems
         (tier2_items Example.host Example.failed
            (Some (<["accountId" := "111111111111"]>
                     (<["resourceTypeNormalized" := "EC2Instance"]> ∅))) p)
       ∈ trace (create_history_with_finding_update Example.host
                  (Scripted.client Example.finding_found) Example.failed
                  Example.empty_world).2
       ∧ Put.Item p !! "accountId" = Some (AV_S "222222222222")
       ∧ Put.Item p !! "resourceId" = None
       ∧ Put.Item p !! "lastUpdatedBy" = Some (AV_S "Automated").
Proof.
  destruct (tier2_history_item_attributes Example.host
              (Scripted.client Example.finding_found) Example.failed
              Example.empty_world example_host_ok)
    as (fd & w1 & p & Hen & Hp & Hin & Hitem).
  injection Hen as <- <-. exists p. split; [exact Hin|].
  cbv zeta in Hitem.
  destruct Hitem as (_&_&_&_&_&_&_&_& [_ Hacc] & [Hrid _] &_&_&_&_&_& Hby).
  split; [exact (Hacc eq_refl)|]. split; [|exact (Hby eq_refl)].
  destruct (Put.Item p !! "resourceId") as [v|] eqn:Hr; [|reflexivity].
  destruct Hrid as [Hrid _]. by specialize (Hrid (mk_is_Some _ _ eq_refl)).
Defined.

End ClaimsCreateItem.

(** ** The engine against the store model *)
Section StoreRuns.
Import FindingsRepository HistoryRepository RemediationDataService.

Lemma key_of_pair (tbl : Store.Table) (c1 c2 : ascii) (h r : string) (rest : Item) :
  Store.hash_key tbl ≠ Store.range_key tbl →
  Store.key_of tbl
    (<[Store.hash_key tbl := AV_S (String c1 h)]>
       (<[Store.range_key tbl := AV_S (String c2 r)]> rest))
  = Return (String c1 h, String c2 r).
Proof.
  intros Hne. unfold Store.key_of.
  rewrite lookup_insert_eq, lookup_insert_ne, lookup_insert_eq by done. done.
Qed.

Lemma key_of_lookup (tbl : Store.Table) (it : Item) (k : string * string) :
  Store.key_of tbl it = Return k →
  it !! Store.hash_key tbl = Some (AV_S k.1)
  ∧ it !! Store.range_key tbl = Some (AV_S k.2)
  ∧ k.1 ≠ "" ∧ k.2 ≠ "".
Proof.
  unfold Store.key_of.
  destruct (it !! Store.hash_key tbl) as [[[|c1 h]| | |]|]; try done;
    destruct (it !! Store.range_key tbl) as [[[|c2 r]| | |]|]; try done.
  by intros [= <-].
Qed.

Lemma key_of_from_lookup (tbl : Store.Table) (it : Item) (h r : string) :
  it !! Store.hash_key tbl = Some (AV_S h) →
  it !! Store.range_key tbl = Some (AV_S r) →
  h ≠ "" → r ≠ "" →
  Store.key_of tbl it = Return (h, r).
Proof.
  intros Hh Hr Hhne Hrne. unfold Store.key_of. rewrite Hh, Hr.
  by destruct h, r.
Qed.

Context (host : Host) (request : RemediationUpdateRequest).
Hypothesis Hvalid : ¬ missing_required request.

Lemma valid_fields :
  ∃ c1 ft c2 fid c3 eid,
    finding_type request = String c1 ft
    ∧ finding_id request = String c2 fid
    ∧ execution_id request = String c3 eid.
Proof.
  unfold missing_required in Hvalid.
  destruct (finding_type request) as [|c1 ft]; [tauto|].
  destruct (finding_id request) as [|c2 fid]; [tauto|].
  destruct (execution_id request) as [|c3 eid]; [tauto|].
  by exists c1, ft, c2, fid, c3, eid.
Qed.

(** The finding update, once validated by the store: unconditional,
    and it leaves the primary key alone. *)
Lemma prepare_finding_update (s : Store.t) :
  deployed host s →
  ∃ wr, Store.prepare s (finding_update host request) = Return wr
        ∧ Store.w_table wr = findings_table host
        ∧ Store.w_condition_ok wr = true.
Proof.
  intros [Hdiff (tf & Htf & Hh & Hr) _].
  destruct valid_fields as (c1 & ft & c2 & fid & c3 & eid & Hft & Hfid & Heid).
  unfold finding_update, FindingsRepository.build_update_item.
  rewrite Heid. cbn [Py.str_truthy].
  assert (Store.key_of tf
            (<["findingType" := AV_S (finding_type request)]>
               (<["findingId" := AV_S (finding_id request)]> ∅))
          = Return (finding_type request, finding_id request)) as Hkey.
  { rewrite Hft, Hfid. rewrite <- Hh, <- Hr. apply key_of_pair.
    by rewrite Hh, Hr. }
  destruct (error request) as [[|c e]|];
    cbn [Store.prepare]; unfold Store.prepare_update;
    cbn [Update.TableName Update.Key
         Update.ConditionExpression Update.ExpressionAttributeNames
         Update.ExpressionAttributeValues Update.UpdateExpression];
    unfold Store.find_table; fold (findings_table host); rewrite Htf;
    cbn [obind]; rewrite Hkey; cbn [obind]; rewrite Hh, Hr;
    eexists; (split; [reflexivity|]); done.
Qed.

Lemma history_key_nonempty :
  (history_key request).1 ≠ "" ∧ (history_key request).2 ≠ "".
Proof.
  destruct valid_fields as (c1 & ft & c2 & fid & c3 & eid & Hft & Hfid & Heid).
  unfold history_key. rewrite Hft, Hfid. done.
Qed.

(** The history update, once validated by the store: its condition is
    the existence of the row, and it writes the status (and possibly the
    error) into that row, leaving its key in place. *)
Lemma prepare_history_update (s : Store.t) (th : Store.Table) :
  deployed host s → s !! history_table host = Some th →
  ∃ wr,
    Store.prepare s
      (HistoryRepository.build_update_item host (finding_id request)
         (execution_id request) (remediation_status request)
         (finding_type request) (error request)) = Return wr
    ∧ Store.w_table wr = history_table host
    ∧ Store.w_key wr = history_key request
    ∧ Store.w_condition_ok wr
      = bool_decide (is_Some (Store.rows th !! history_key request))
    ∧ Store.w_row wr !! "remediationStatus"
      = Some (AV_S (remediation_status request))
    ∧ (is_Some (Store.rows th !! history_key request) →
       Store.key_of th (Store.w_row wr) = Return (history_key request)).
Proof.
  intros [Hdiff _ (th' & Hth' & Hh & Hr & Hwf)] Hth.
  rewrite Hth in Hth'. injection Hth' as <-.
  destruct history_key_nonempty as [Hk1 Hk2].
  assert (Store.key_of th
            (<["findingType" := AV_S (finding_type request)]>
               (<["findingId#executionId" :=
                    AV_S (finding_id request +:+ "#" +:+ execution_id request)]> ∅))
          = Return (history_key request)) as Hkey.
  { apply key_of_from_lookup; rewrite ?Hh, ?Hr; try done. }
  assert (∀ row : option Item,
            (∀ it, row = Some it → Store.key_of th it = Return (history_key request)) →
            forallb (Store.holds row)
              [Store.AttributeExists "findingType";
               Store.AttributeExists "findingId#executionId"]
            = bool_decide (is_Some row)) as Hcond.
  { intros [it|] Hit; cbn [forallb Store.holds].
    - destruct (key_of_lookup th it _ (Hit it eq_refl)) as (H1 & H2 & _).
      rewrite Hh in H1. rewrite Hr in H2.
      rewrite !bool_decide_eq_true_2; by eauto.
    - rewrite bool_decide_eq_false_2; [done|]. by intros []. }
  unfold HistoryRepository.build_update_item,
    FINDING_ID_EXECUTION_ID_KEY, SORT_KEY_ATTRIBUTE_NAME.
  destruct (error request) as [[|c e]|];
    cbn [Store.prepare]; unfold Store.prepare_update;
    cbn [Update.TableName Update.Key
         Update.ConditionExpression Update.ExpressionAttributeNames
         Update.ExpressionAttributeValues Update.UpdateExpression];
    unfold Store.find_table; fold (history_table host); rewrite Hth;
    cbn [obind]; rewrite Hkey; cbn [obind]; rewrite Hh, Hr;
    (eexists; split; [reflexivity|]);
    cbn [Store.w_table Store.w_key Store.w_condition_ok Store.w_row];
    (split; [done|]); (split; [done|]);
    (split; [apply Hcond; intros it Hit; by apply Hwf|]);
    change (String.rev "sutatSnoitaidemer") with "remediationStatus";
    (destruct (Store.rows th !! history_key request) as [it|] eqn:Hrow;
     [ pose proof (Hwf _ _ Hrow) as Hitk;
       destruct (key_of_lookup th it _ Hitk) as (H1 & H2 & _);
       rewrite Hh in H1; rewrite Hr in H2;
       unfold Store.apply_actions; cbn [foldl fst snd];
       split; [by rewrite ?lookup_insert_ne, lookup_insert_eq by done|];
       intros _; apply key_of_from_lookup; try done;
       rewrite ?Hh, ?Hr; by rewrite !lookup_insert_ne by done
     | unfold Store.apply_actions; cbn [foldl fst snd];
       split; [by rewrite ?lookup_insert_ne, lookup_insert_eq by done|];
       by intros [] ]).
Qed.

(** The create item, once validated by the store: its condition is the
    absence of the row, and it stores the item under the request's
    history key. *)
Lemma prepare_put (s : Store.t) (th : Store.Table)
    (fd : option (gmap string string)) (p : Put.t) :
  host_ok host → harvested fd →
  deployed host s → s !! history_table host = Some th →
  build_create_item host request (extra_fields_of fd) = Return (TPut p) →
  ∃ wr,
    Store.prepare s (TPut p) = Return wr
    ∧ Store.w_table wr = history_table host
    ∧ Store.w_key wr = history_key request
    ∧ Store.w_condition_ok wr
      = bool_decide (Store.rows th !! history_key request = None)
    ∧ Store.w_row wr = Put.Item p
    ∧ Store.key_of th (Put.Item p) = Return (history_key request)
    ∧ Put.Item p !! "remediationStatus" = Some (AV_S (remediation_status request)).
Proof.
  intros Hhost Hh [Hdiff _ (th' & Hth' & Hhash & Hrange & Hwf)] Hth Hp.
  rewrite Hth in Hth'. injection Hth' as <-.
  destruct history_key_nonempty as [Hk1 Hk2].
  destruct (build_create_item_total host request Hhost)
    as (p0 & Hp0 & Htable & Hcond & Hnames & _).
  destruct (carried_over_fields_keep_request host request fd p0 Hhost Hh Hp0)
    as (p' & Hp' & Htable' & Hcond' & Hnames' & _ & Hkeep).
  rewrite Hp in Hp'. injection Hp' as <-.
  pose proof (build_create_item_attributes host request p0 Hp0) as Hattrs.
  cbv zeta in Hattrs. destruct Hattrs as (Hft & _ & Hsk & _ & Hrs & _).
  apply Hkeep in Hft, Hsk, Hrs.
  assert (Store.key_of th (Put.Item p) = Return (history_key request)) as Hkey.
  { apply key_of_from_lookup; rewrite ?Hhash, ?Hrange; done. }
  cbn [Store.prepare]. unfold Store.prepare_put, Store.find_table.
  rewrite Htable', Htable. fold (history_table host). rewrite Hth. cbn [obind].
  rewrite Hkey. cbn [obind]. rewrite Hcond', Hcond, Hnames', Hnames.
  eexists. split; [reflexivity|].
  cbn [Store.w_table Store.w_key Store.w_condition_ok Store.w_row].
  repeat split; try done.
  destruct (Store.rows th !! history_key request) as [it|] eqn:Hrow.
  - destruct (key_of_lookup th it _ (Hwf _ _ Hrow)) as (H1 & H2 & _).
    rewrite Hhash in H1. cbn [forallb Store.holds].
    rewrite (bool_decide_eq_false_2 (it !! "findingType" = None)) by congruence.
    cbn [andb]. by rewrite bool_decide_eq_false_2.
  - by rewrite bool_decide_eq_true_2.
Qed.

End StoreRuns.

Section Commit.

Lemma commit_lookup (s : Store.t) (wr : Store.write) (tbl : Store.Table) :
  s !! Store.w_table wr = Some tbl →
  Store.commit s wr !! Store.w_table wr
  = Some (Store.mkTable (Store.hash_key tbl) (Store.range_key tbl)
            (<[Store.w_key wr := Store.w_row wr]> (Store.rows tbl))).
Proof. intros Hs. unfold Store.commit. rewrite Hs. apply lookup_insert_eq. Qed.

Lemma commit_lookup_ne (s : Store.t) (wr : Store.write) (name : string) :
  Store.w_table wr ≠ name → Store.commit s wr !! name = s !! name.
Proof.
  intros Hne. unfold Store.commit.
  destruct (s !! Store.w_table wr); [|done]. by rewrite lookup_insert_ne.
Qed.

Context (host : Host).

Lemma commit_findings_deployed (s : Store.t) (wr : Store.write) :
  deployed host s → Store.w_table wr = findings_table host →
  deployed host (Store.commit s wr)
  ∧ Store.commit s wr !! history_table host = s !! history_table host.
Proof.
  intros [Hdiff (tf & Htf & Hh & Hr) Hhist] Hw. split; [split|].
  - done.
  - rewrite <- Hw in Htf |- *. rewrite (commit_lookup _ _ _ Htf). eauto.
  - by rewrite commit_lookup_ne by (by rewrite Hw).
  - by rewrite commit_lookup_ne by (by rewrite Hw).
Qed.

Lemma commit_history_deployed (s : Store.t) (wr : Store.write) (th : Store.Table) :
  deployed host s → s !! history_table host = Some th →
  Store.w_table wr = history_table host →
  Store.key_of th (Store.w_row wr) = Return (Store.w_key wr) →
  deployed host (Store.commit s wr)
  ∧ history_rows host (Store.commit s wr)
    = <[Store.w_key wr := Store.w_row wr]> (Store.rows th).
Proof.
  intros [Hdiff Hfind (th' & Hth' & Hh & Hr & Hwf)] Hth Hw Hkey.
  rewrite Hth in Hth'. injection Hth' as <-.
  assert (Store.commit s wr !! history_table host
          = Some (Store.mkTable (Store.hash_key th) (Store.range_key th)
                    (<[Store.w_key wr := Store.w_row wr]> (Store.rows th)))) as Hnew.
  { rewrite <- Hw in Hth |- *. by apply commit_lookup. }
  split; [split|].
  - done.
  - destruct Hfind as (tf & Htf & ?). exists tf. split; [|done].
    by rewrite commit_lookup_ne by (rewrite Hw; congruence).
  - eexists. split; [exact Hnew|]. cbn [Store.hash_key Store.range_key Store.rows].
    repeat split; try done. intros k it Hk.
    rewrite lookup_insert in Hk. destruct (decide (Store.w_key wr = k)) as [<-|].
    + injection Hk as <-. exact Hkey.
    + exact (Hwf _ _ Hk).
  - unfold history_rows. by rewrite Hnew.
Qed.

End Commit.

Section StoreTransactions.
Import FindingsRepository HistoryRepository RemediationDataService.
Context (host : Host) (request : RemediationUpdateRequest).
Hypothesis Hvalid : ¬ missing_required request.

Lemma history_rows_lookup (s : Store.t) (th : Store.Table) :
  s !! history_table host = Some th → history_rows host s = Store.rows th.
Proof. intros Hs. unfold history_rows. by rewrite Hs. Qed.

(** Tier 1 on a store that holds the History record: both updates are
    applied. *)
Lemma tier1_applies (s : Store.t) :
  deployed host s →
  is_Some (history_rows host s !! history_key request) →
  ∃ s' row,
    Store.transact_write_items (tier1_items host request) s = (Return tt, s')
    ∧ deployed host s'
    ∧ history_rows host s'
      = <[history_key request := row]> (history_rows host s)
    ∧ row !! "remediationStatus" = Some (AV_S (remediation_status request)).
Proof.
  intros Hdep Hrow. pose proof Hdep as [_ _ (th & Hth & _)].
  rewrite (history_rows_lookup s th Hth) in Hrow |- *.
  destruct (prepare_finding_update host request Hvalid s Hdep)
    as (wf & Hwf & Hwft & Hwfc).
  destruct (prepare_history_update host request Hvalid s th Hdep Hth)
    as (wh & Hwh & Hwht & Hwhk & Hwhc & Hstatus & Hkey).
  destruct (commit_findings_deployed host s wf Hdep Hwft) as [Hdep1 Hth1].
  rewrite Hth in Hth1.
  destruct (commit_history_deployed host _ wh th Hdep1 Hth1 Hwht) as [Hdep2 Hrows2].
  { rewrite Hwhk. by apply Hkey. }
  exists (Store.commit (Store.commit s wf) wh), (Store.w_row wh).
  unfold Store.transact_write_items, tier1_items. cbn [Store.prepare_all].
  rewrite Hwf. cbn [obind]. rewrite Hwh. cbn [obind forallb foldl].
  rewrite Hwfc, Hwhc. rewrite bool_decide_eq_true_2 by done. cbn [andb].
  split; [reflexivity|]. split; [exact Hdep2|].
  split; [by rewrite Hrows2, Hwhk|exact Hstatus].
Qed.

(** Tier 1 on a store without the History record: the transaction is
    cancelled, the History item reporting the failed condition, and
    nothing is written. *)
Lemma tier1_cancelled (s : Store.t) :
  deployed host s →
  history_rows host s !! history_key request = None →
  ∃ response,
    Store.transact_write_items (tier1_items host request) s
      = (Raise (ClientError response), s)
    ∧ error_code_of response = "TransactionCanceledException"
    ∧ (Code <$> cancellation_reasons_of response)
      = [Some "None"; Some "ConditionalCheckFailed"].
Proof.
  intros Hdep Hrow. pose proof Hdep as [_ _ (th & Hth & _)].
  rewrite (history_rows_lookup s th Hth) in Hrow.
  destruct (prepare_finding_update host request Hvalid s Hdep)
    as (wf & Hwf & Hwft & Hwfc).
  destruct (prepare_history_update host request Hvalid s th Hdep Hth)
    as (wh & Hwh & Hwht & Hwhk & Hwhc & Hstatus & Hkey).
  rewrite Hrow, bool_decide_eq_false_2 in Hwhc by (by intros []).
  unfold Store.transact_write_items, tier1_items. cbn [Store.prepare_all].
  rewrite Hwf. cbn [obind]. rewrite Hwh. cbn [obind forallb].
  rewrite Hwfc, Hwhc.
  cbn [andb]. eexists. split; [reflexivity|]. split; [reflexivity|].
  cbn. unfold Store.reason_of. by rewrite Hwfc, Hwhc.
Qed.

(** Tier 2 on a store without the History record: the record is
    created from the create item, whether or not the finding update rides
    along. *)
Lemma tier2_creates (s : Store.t) (fd : option (gmap string string)) (p : Put.t) :
  host_ok host → harvested fd → deployed host s →
  history_rows host s !! history_key request = None →
  build_create_item host request (extra_fields_of fd) = Return (TPut p) →
  ∃ s',
    Store.transact_write_items (tier2_items host request fd p) s
      = (Return tt, s')
    ∧ deployed host s'
    ∧ history_rows host s'
      = <[history_key request := Put.Item p]> (history_rows host s)
    ∧ Put.Item p !! "remediationStatus"
      = Some (AV_S (remediation_status request)).
Proof.
  intros Hhost Hh Hdep Hrow Hp. pose proof Hdep as [_ _ (th & Hth & _)].
  rewrite (history_rows_lookup s th Hth) in Hrow |- *.
  destruct (prepare_finding_update host request Hvalid s Hdep)
    as (wf & Hwf & Hwft & Hwfc).
  destruct (prepare_put host request Hvalid s th fd p Hhost Hh Hdep Hth Hp)
    as (wp & Hwp & Hwpt & Hwpk & Hwpc & Hwpr & Hkey & Hstatus).
  rewrite Hrow, bool_decide_eq_true_2 in Hwpc by done.
  unfold Store.transact_write_items, tier2_items.
  destruct (finding_data_truthy fd); cbn [app Store.prepare_all].
  - destruct (commit_findings_deployed host s wf Hdep Hwft) as [Hdep1 Hth1].
    rewrite Hth in Hth1.
    destruct (commit_history_deployed host _ wp th Hdep1 Hth1 Hwpt) as [Hdep2 Hrows2].
    { by rewrite Hwpk, Hwpr. }
    rewrite Hwf. cbn [obind]. rewrite Hwp. cbn [obind forallb foldl].
    rewrite Hwfc, Hwpc. cbn [andb].
    eexists. split; [reflexivity|]. split; [exact Hdep2|].
    split; [by rewrite Hrows2, Hwpk, Hwpr|exact Hstatus].
  - destruct (commit_history_deployed host s wp th Hdep Hth Hwpt) as [Hdep2 Hrows2].
    { by rewrite Hwpk, Hwpr. }
    rewrite Hwp. cbn [obind forallb foldl]. rewrite Hwpc. cbn [andb].
    eexists. split; [reflexivity|]. split; [exact Hdep2|].
    split; [by rewrite Hrows2, Hwpk, Hwpr|exact Hstatus].
Qed.

End StoreTransactions.

Section CoordinatorRuns.
Import FindingsRepository HistoryRepository RemediationDataService.
Context {St : Type} (host : Host) (dynamodb : DynamoDBClient St).

Lemma store_calls_app (l1 l2 : list event) :
  store_calls (l1 ++ l2) = (store_calls l1 ++ store_calls l2)%list.
Proof. apply List.filter_app. Qed.

Lemma try_update_run (request : RemediationUpdateRequest) (w : World St) :
  let tr := (trace w ++ [Log DEBUG "Attempting to update existing history item";
                         CallTransactWriteItems (tier1_items host request)])%list in
  try_update_with_existing_history host dynamodb request w =
    match transact_write_items dynamodb (tier1_items host request) (store w) with
    | (Return _, s') =>
        (Return true,
         mkWorld s' (tr ++
           [Log DEBUG "Successfully updated existing history item via transaction"]))
    | (Raise (ClientError response), s') =>
        if bool_decide (error_code_of response = "TransactionCanceledException")
           && existsb is_conditional_check_failed (cancellation_reasons_of response)
        then
          (Return false,
           mkWorld s' (tr ++
             [Log WARNING "Transaction failed while trying to update existing history";
              Log WARNING
                "History item not found due to conditional check failure, will attempt fallback creation"]))
        else
          (Raise (ClientError response),
           mkWorld s' (tr ++
             [Log WARNING "Transaction failed while trying to update existing history"]))
    | (Raise e, s') => (Raise e, mkWorld s' tr)
    end.
Proof.
  cbv zeta.
  unfold try_update_with_existing_history, transact_update_finding_and_history.
  unfold_M. cbn [store trace].
  change [FindingsRepository.build_update_item _ _ _ _ _ _; _]
    with (tier1_items host request).
  destruct (transact_write_items dynamodb (tier1_items host request) (store w))
    as [[[]|e] s']; cbn [store trace].
  - by rewrite <- !app_assoc.
  - destruct e; try (by rewrite <- !app_assoc).
    destruct (_ && _); cbn [store trace]; by rewrite <- !app_assoc.
Qed.

(** A valid request whose Tier-1 transaction is accepted. *)
Lemma update_run_tier1 (request : RemediationUpdateRequest) (w : World St) (s' : St) :
  ¬ missing_required request →
  transact_write_items dynamodb (tier1_items host request) (store w)
    = (Return tt, s') →
  ∃ w', update_remediation_status_and_history host dynamodb request w
          = (Return tt, w')
        ∧ store w' = s'
        ∧ store_calls (trace w')
          = (store_calls (trace w)
             ++ [CallTransactWriteItems (tier1_items host request)])%list.
Proof.
  intros Hvalid Htx. unfold update_remediation_status_and_history.
  unfold bind at 1. rewrite validate_true by done. cbn [negb].
  unfold try_except, bind at 1, log, emit. cbn [store trace].
  unfold bind at 1. rewrite try_update_run. cbn [store trace]. rewrite Htx.
  cbn [negb]. unfold ret. eexists. split; [reflexivity|]. split; [done|].
  cbn [trace]. rewrite !store_calls_app. cbn. by rewrite !app_nil_r.
Qed.

End CoordinatorRuns.

Section OnTheStore.
Import FindingsRepository HistoryRepository RemediationDataService.
Context (host : Host) (request : RemediationUpdateRequest).
Hypothesis Hvalid : ¬ missing_required request.

(** A valid request on a store that already holds its History record:
    one Tier-1 transaction, which updates the record in place. *)
Lemma update_existing_history (s : Store.t) (tr : list event) :
  deployed host s →
  is_Some (history_rows host s !! history_key request) →
  ∃ w' row,
    update_remediation_status_and_history host Store.client request (mkWorld s tr)
      = (Return tt, w')
    ∧ deployed host (store w')
    ∧ history_rows host (store w')
      = <[history_key request := row]> (history_rows host s)
    ∧ row !! "remediationStatus" = Some (AV_S (remediation_status request))
    ∧ store_calls (trace w')
      = (store_calls tr ++ [CallTransactWriteItems (tier1_items host request)])%list.
Proof.
  intros Hdep Hrow.
  destruct (tier1_applies host request Hvalid s Hdep Hrow)
    as (s' & row & Htx & Hdep' & Hrows & Hstatus).
  destruct (update_run_tier1 host Store.client request (mkWorld s tr) s' Hvalid Htx)
    as (w' & Hrun & Hstore & Hcalls).
  exists w', row. rewrite Hstore. done.
Qed.

(** A valid request on a store without its History record: Tier 1 is
    cancelled, and Tier 2 creates the record. *)
Lemma update_creates_history (s : Store.t) (tr : list event) :
  host_ok host → deployed host s →
  history_rows host s !! history_key request = None →
  ∃ w' fd p,
    update_remediation_status_and_history host Store.client request (mkWorld s tr)
      = (Return tt, w')
    ∧ deployed host (store w')
    ∧ build_create_item host request (extra_fields_of fd) = Return (TPut p)
    ∧ history_rows host (store w')
      = <[history_key request := Put.Item p]> (history_rows host s)
    ∧ Put.Item p !! "remediationStatus" = Some (AV_S (remediation_status request))
    ∧ store_calls (trace w')
      = (store_calls tr ++
           [CallTransactWriteItems (tier1_items host request);
            CallGetItem (finding_lookup host request);
            CallTransactWriteItems (tier2_items host request fd p)])%list.
Proof.
  intros Hhost Hdep Hrow.
  destruct (tier1_cancelled host request Hvalid s Hdep Hrow)
    as (response & Htx1 & Hcode & Hreasons).
  assert (existsb is_conditional_check_failed (cancellation_reasons_of response) = true)
    as Hccf.
  { destruct (cancellation_reasons_of response) as [|r0 [|r1 [|]]]; try done.
    cbn in Hreasons. injection Hreasons as _ Hr1. cbn [existsb].
    unfold is_conditional_check_failed at 2. rewrite Hr1.
    rewrite bool_decide_eq_true_2 by done. by rewrite orb_true_r. }
  set (wB := mkWorld s
               ((((tr ++ [Log DEBUG "Processing remediation status update"])
                  ++ [Log DEBUG "Attempting to update existing history item";
                      CallTransactWriteItems (tier1_items host request)])
                 ++ [Log WARNING "Transaction failed while trying to update existing history";
                     Log WARNING
                       "History item not found due to conditional check failure, will attempt fallback creation"])
                ++ [Log INFO "History item not found, creating new history record via fallback"])).
  destruct (enrichment_run host Store.client request wB)
    as (fd & logs & Hen & Hh & Hlogs & _).
  cbn [get_item Store.client Store.get_item snd store] in Hen.
  destruct (build_create_item_total host request Hhost) as (p0 & Hp0 & _).
  destruct (carried_over_fields_keep_request host request fd p0 Hhost Hh Hp0)
    as (p & Hp & _).
  destruct (tier2_creates host request Hvalid s fd p Hhost Hh Hdep Hrow Hp)
    as (s' & Htx2 & Hdep' & Hrows & Hstatus).
  eexists _, fd, p.
  unfold update_remediation_status_and_history.
  unfold bind at 1. rewrite validate_true by done. cbn [negb].
  unfold try_except, bind at 1, log at 1, emit at 1. cbn [store trace].
  unfold bind at 1. rewrite try_update_run. cbn [store trace].
  cbn [transact_write_items Store.client]. rewrite Htx1, Hcode, Hccf.
  rewrite bool_decide_eq_true_2 by done. cbn [andb negb].
  unfold bind at 1, log at 1, emit at 1. cbn [store trace].
  fold wB.
  rewrite (create_history_run host Store.client request wB fd _ p Hen Hp).
  cbn [store trace transact_write_items Store.client].
  change (store wB) with s. rewrite Htx2. cbn [fst snd].
  split; [reflexivity|]. cbn [store trace].
  repeat (split; [done|]).
  unfold wB. cbn [trace].
  change (CallGetItem (finding_lookup host request) :: logs)
    with ([CallGetItem (finding_lookup host request)] ++ logs)%list.
  rewrite !store_calls_app, Hlogs. cbn.
  by rewrite !app_nil_r, <- !app_assoc.
Qed.

End OnTheStore.

Section ClaimIdempotent.
Import FindingsRepository HistoryRepository RemediationDataService.

Lemma deployed_same_environ (host1 host2 : Host) (s : Store.t) :
  environ host1 = environ host2 → deployed host1 s → deployed host2 s.
Proof.
  intros Henv [Hdiff Hf Hh].
  unfold findings_table, history_table in *. rewrite Henv in *.
  by split.
Qed.

Lemma history_rows_same_environ (host1 host2 : Host) (s : Store.t) :
  environ host1 = environ host2 → history_rows host1 s = history_rows host2 s.
Proof. intros Henv. unfold history_rows, history_table. by rewrite Henv. Qed.

Lemma example_store_deployed : deployed Example.test_host ExampleStore.initial.
Proof.
  split.
  - done.
  - eexists. split; [reflexivity|]. done.
  - eexists. split; [reflexivity|].
    repeat split; try done; intros k it Hk; cbn in Hk; by rewrite lookup_empty in Hk.
Qed.

(** C2.  On a deployed store, with a working clock and retention
    setting, two calls for the same [(finding_type, finding_id,
    execution_id)] both succeed and leave the history table equal to the
    initial one with the single row of that key written: the record
    exists, no other row is touched, and its [remediationStatus] is the
    second call's.  The record is created at most once, by the
    conditional Put of the first call's Tier 2 and only when it did not
    exist; the second call is a single Tier-1 transaction and never
    issues a Put. *)
Theorem two_updates_one_history_record (host1 host2 : Host)
    (r1 r2 : RemediationUpdateRequest) (s : Store.t) (tr : list event) :
  host_ok host1 → host_ok host2 → environ host1 = environ host2 →
  deployed host1 s →
  ¬ missing_required r1 → ¬ missing_required r2 →
  finding_type r1 = finding_type r2 →
  finding_id r1 = finding_id r2 →
  execution_id r1 = execution_id r2 →
  ∃ w1 w2 row,
    update_remediation_status_and_history host1 Store.client r1 (mkWorld s tr)
      = (Return tt, w1)
    ∧ update_remediation_status_and_history host2 Store.client r2 w1
      = (Return tt, w2)
    ∧ history_rows host1 (store w2)
      = <[history_key r1 := row]> (history_rows host1 s)
    ∧ row !! "remediationStatus" = Some (AV_S (remediation_status r2))
    ∧ dom (history_rows host1 (store w2)) = dom (history_rows host1 (store w1))
    ∧ store_calls (trace w2)
      = (store_calls (trace w1)
         ++ [CallTransactWriteItems (tier1_items host2 r2)])%list
    ∧ ((is_Some (history_rows host1 s !! history_key r1)
        ∧ store_calls (trace w1)
          = (store_calls tr ++ [CallTransactWriteItems (tier1_items host1 r1)])%list)
       ∨ (history_rows host1 s !! history_key r1 = None
          ∧ ∃ fd p,
              build_create_item host1 r1 (extra_fields_of fd) = Return (TPut p)
              ∧ store_calls (trace w1)
                = (store_calls tr ++
                     [CallTransactWriteItems (tier1_items host1 r1);
                      CallGetItem (finding_lookup host1 r1);
                      CallTransactWriteItems (tier2_items host1 r1 fd p)])%list)).
Proof.
  intros Hhost1 Hhost2 Henv Hdep Hv1 Hv2 Hft Hfid Heid.
  assert (history_key r2 = history_key r1) as Hkey.
  { unfold history_key. by rewrite Hft, Hfid, Heid. }
  assert (∃ w1 row1,
            update_remediation_status_and_history host1 Store.client r1 (mkWorld s tr)
              = (Return tt, w1)
            ∧ deployed host1 (store w1)
            ∧ history_rows host1 (store w1)
              = <[history_key r1 := row1]> (history_rows host1 s)
            ∧ ((is_Some (history_rows host1 s !! history_key r1)
                ∧ store_calls (trace w1)
                  = (store_calls tr
                     ++ [CallTransactWriteItems (tier1_items host1 r1)])%list)
               ∨ (history_rows host1 s !! history_key r1 = None
                  ∧ ∃ fd p,
                      build_create_item host1 r1 (extra_fields_of fd) = Return (TPut p)
                      ∧ store_calls (trace w1)
                        = (store_calls tr ++
                             [CallTransactWriteItems (tier1_items host1 r1);
                              CallGetItem (finding_lookup host1 r1);
                              CallTransactWriteItems (tier2_items host1 r1 fd p)])%list)))
    as (w1 & row1 & Hrun1 & Hdep1 & Hrows1 & Hfirst).
  { destruct (history_rows host1 s !! history_key r1) as [it|] eqn:Hrow.
    - destruct (update_existing_history host1 r1 Hv1 s tr Hdep)
        as (w1 & row1 & Hrun & Hd & Hr & _ & Hcalls); [by rewrite Hrow|].
      exists w1, row1. split; [exact Hrun|]. split; [exact Hd|].
      split; [exact Hr|]. left. split; [done|exact Hcalls].
    - destruct (update_creates_history host1 r1 Hv1 s tr Hhost1 Hdep Hrow)
        as (w1 & fd & p & Hrun & Hd & Hp & Hr & _ & Hcalls).
      exists w1, (Put.Item p). split; [exact Hrun|]. split; [exact Hd|].
      split; [exact Hr|]. right. split; [done|]. by exists fd, p. }
  destruct w1 as [s1 tr1]. cbn [store trace] in *.
  destruct (update_existing_history host2 r2 Hv2 s1 tr1)
    as (w2 & row2 & Hrun2 & Hdep2 & Hrows2 & Hstatus2 & Hcalls2).
  { by apply (deployed_same_environ host1 host2). }
  { rewrite <- (history_rows_same_environ host1 host2) by done.
    rewrite Hkey, Hrows1, lookup_insert_eq. done. }
  rewrite <- !(history_rows_same_environ host1 host2) in Hrows2 by done.
  rewrite Hkey in Hrows2.
  exists (mkWorld s1 tr1), w2, row2. cbn [store trace].
  split; [done|]. split; [done|].
  split; [by rewrite Hrows2, Hrows1, insert_insert_eq|].
  split; [done|].
  split; [by rewrite Hrows2, dom_insert_L, Hrows1, dom_insert_L, (assoc_L _),
            (idemp_L _)|].
  split; done.
Qed.

(** C2, witness: the scenario of the specification on the tables of the
    repository's tests, [IN_PROGRESS] first and [SUCCESS] next for
    execution [e1] of finding [f1]. *)
Lemma two_updates_one_history_record_witness :
  ∃ w1 w2 row,
    update_remediation_status_and_history Example.test_host Store.client
      Example.queued (mkWorld ExampleStore.initial []) = (Return tt, w1)
    ∧ update_remediation_status_and_history Example.test_host Store.client
        Example.succeeded w1 = (Return tt, w2)
    ∧ history_rows Example.test_host (store w2)
      = <[("EC2.1", "f1#e1") := row]> ∅
    ∧ row !! "remediationStatus" = Some (AV_S "SUCCESS").
Proof.
  assert (¬ missing_required Example.queued) as Hv1
    by (intros [H|[H|H]]; discriminate H).
  assert (¬ missing_required Example.succeeded) as Hv2
    by (intros [H|[H|H]]; discriminate H).
  destruct (two_updates_one_history_record Example.test_host Example.test_host
              Example.queued Example.succeeded ExampleStore.initial []
              example_test_host_ok example_test_host_ok eq_refl
              example_store_deployed Hv1 Hv2 eq_refl eq_refl eq_refl)
    as (w1 & w2 & row & Hrun1 & Hrun2 & Hrows & Hstatus & _).
  exists w1, w2, row. split; [exact Hrun1|]. split; [exact Hrun2|].
  split; [exact Hrows|exact Hstatus].
Defined.

End ClaimIdempotent.
